(** * Komga source and tracker for Paperback: request/response orchestration

    A shallow embedding of [src/Paperback/Paperback.ts] (the source plugin)
    and of the interceptor of the tracker plugin bundled in the same file,
    followed by the properties of the orchestration layer: authorization
    injection, response normalization, paging, the update walk, the tag
    catalog, the home page, progress reconciliation and the chapter-read
    action queue.

    - JavaScript values are modelled as they are after [JSON.parse], with
      [undefined] added; property reads, iteration and conversions follow
      the language ([TypeError] on [null]/[undefined], and so on).
    - [async] functions are computations in a state-and-exception monad
      over the host: the state is the world behind the request manager and
      the trace of the calls made to the host (scheduled requests, section
      and update callbacks, dispositions of queued actions).  A rejected
      promise is a raised exception.  [console.log] is not part of the
      trace.
    - Requests issued without [await] and joined by [Promise.all] (the home
      page) are issued in program order; their completions are taken in
      that order too.
    - Loops whose length depends on the server take a bound on the number
      of pages. *)

From Stdlib Require Import String Ascii List ZArith QArith Bool Lia DecimalString.
From stdpp Require Import base option list gmap strings.

Local Open Scope string_scope.
Local Open Scope Z_scope.
Set Warnings "-register-all".

(** ** Exceptions and results *)

Inductive Exn : Type :=
| TypeError                      (* property of null/undefined, not iterable, not a function *)
| SyntaxError                    (* JSON.parse on malformed text *)
| TransportError (msg : string)  (* rejected request: timeout, refused, ... *)
| HostError (msg : string).      (* any other Error object *)

Inductive Result (A : Type) : Type :=
| Ok (a : A)
| Throw (e : Exn).
Arguments Ok {A} a.
Arguments Throw {A} e.

Definition is_ok {A} (r : Result A) : bool :=
  match r with Ok _ => true | Throw _ => false end.

Definition rbind {A B} (r : Result A) (f : A -> Result B) : Result B :=
  match r with Ok a => f a | Throw e => Throw e end.

Declare Scope result_scope.
Delimit Scope result_scope with result.
Notation "'let?' x ':=' c 'in' k" := (rbind c (fun x => k))
  (at level 10, x pattern, c at level 100, k at level 200) : result_scope.

Fixpoint rmap {A B} (f : A -> Result B) (l : list A) : Result (list B) :=
  match l with
  | [] => Ok []
  | x :: xs => (let? y := f x in let? ys := rmap f xs in Ok (y :: ys))%result
  end.

(** ** JavaScript values *)

(** Numbers are IEEE doubles in the program.  Every finite double is a
    rational, and [<=], [<] and [==] on finite doubles are the rational
    ones, so a number is a [Q]; [NaN] is the [None] of [ToNumber]. *)
Inductive JSValue : Type :=
| JUndefined
| JNull
| JBool (b : bool)
| JNum (n : Q)
| JStr (s : string)
| JArr (elems : list JSValue)
| JObj (fields : list (string * JSValue)).

Definition JInt (z : Z) : JSValue := JNum (inject_Z z).

Fixpoint lookup_field (k : string) (fs : list (string * JSValue)) : JSValue :=
  match fs with
  | [] => JUndefined
  | (k', v) :: rest => if String.eqb k k' then v else lookup_field k rest
  end.

(** [typeof v === 'string'] *)
Definition typeof_string (v : JSValue) : bool :=
  match v with JStr _ => true | _ => false end.

(** [v == null]: true for [null] and [undefined] only. *)
Definition is_nullish (v : JSValue) : bool :=
  match v with JUndefined | JNull => true | _ => false end.

(** [v.k]: reading a property of [null] or [undefined] throws; a missing
    property is [undefined]; arrays and strings have a [length]. *)
Definition get_prop (v : JSValue) (k : string) : Result JSValue :=
  match v with
  | JUndefined | JNull => Throw TypeError
  | JObj fs => Ok (lookup_field k fs)
  | JArr l => if String.eqb k "length" then Ok (JInt (Z.of_nat (length l))) else Ok JUndefined
  | JStr s => if String.eqb k "length" then Ok (JInt (Z.of_nat (String.length s))) else Ok JUndefined
  | JBool _ | JNum _ => Ok JUndefined
  end.

(** [v?.k] *)
Definition opt_prop (v : JSValue) (k : string) : JSValue :=
  match v with
  | JUndefined | JNull => JUndefined
  | _ => match get_prop v k with Ok x => x | Throw _ => JUndefined end
  end.

(** [a ?? b] *)
Definition nullish_or (a b : JSValue) : JSValue :=
  if is_nullish a then b else a.

(** [for (const x of v)]: arrays yield their elements, strings their
    characters, anything else is not iterable. *)
Definition js_iter (v : JSValue) : Result (list JSValue) :=
  match v with
  | JArr l => Ok l
  | JStr s => Ok (map (fun c => JStr (String c EmptyString)) (list_ascii_of_string s))
  | _ => Throw TypeError
  end.

(** [v.map(f)]: only arrays have [map]. *)
Definition js_map {B} (v : JSValue) (f : JSValue -> Result B) : Result (list B) :=
  match v with
  | JArr l => rmap f l
  | _ => Throw TypeError
  end.

(** ** The engine's built-ins

    [JSON.parse], number formatting, string-to-number conversion and
    [Date.parse] belong to the JavaScript engine, not to the repository;
    the plugin code is written against this interface. *)
Class JSEngine : Type := {
  JSON_parse : string -> Result JSValue;
  Number_toString : Q -> string;
  StringToNumber : string -> option Q;
  Date_parse : string -> option Z;
}.

Fixpoint join (sep : string) (l : list string) : string :=
  match l with
  | [] => EmptyString
  | [x] => x
  | x :: xs => x ++ sep ++ join sep xs
  end.

Section Conversions.
Context `{JSEngine}.

(** [String(v)], as used by template literals and by ['...' + v]. *)
Fixpoint ToString (v : JSValue) : string :=
  match v with
  | JUndefined => "undefined"
  | JNull => "null"
  | JBool true => "true"
  | JBool false => "false"
  | JNum n => Number_toString n
  | JStr s => s
  | JArr l =>
      join "," (List.map (fun x => match x with
                                   | JUndefined | JNull => EmptyString
                                   | _ => ToString x
                                   end) l)
  | JObj _ => "[object Object]"
  end.

(** [Number(v)]; [None] is [NaN]. *)
Definition ToNumber (v : JSValue) : option Q :=
  match v with
  | JUndefined => None
  | JNull => Some 0%Q
  | JBool b => Some (if b then 1%Q else 0%Q)
  | JNum n => Some n
  | JStr s => StringToNumber s
  | JArr _ | JObj _ => StringToNumber (ToString v)
  end.

(** [a <= n] where [n] is a number. *)
Definition js_le_num (a : JSValue) (n : Q) : bool :=
  match ToNumber a with
  | Some x => Qle_bool x n
  | None => false
  end.

(** [n == v] where [n] is a number: never equal to [null]/[undefined],
    otherwise numeric equality after conversion. *)
Definition js_eq_num (n : Q) (v : JSValue) : bool :=
  match v with
  | JUndefined | JNull => false
  | _ => match ToNumber v with
         | Some x => Qeq_bool n x
         | None => false
         end
  end.
End Conversions.

(** ** Requests, responses and the host application *)

(** [App.createRequest({...})]: fields that are not given are [undefined]. *)
Record Request : Type := createRequest {
  url : string;
  method : string;
  headers : option (gmap string JSValue);
  param : option string;
  data : option JSValue;
}.

Record Response : Type := createResponse {
  resp_data : JSValue;
  status : Z;
}.

(** The two stores of [App.createSourceStateManager()]; [retrieve] answers
    [null] for a key that was never stored. *)
Record SourceStateManager : Type := {
  state : gmap string JSValue;
  keychain : gmap string JSValue;
}.

Definition retrieve (store : gmap string JSValue) (k : string) : JSValue :=
  default JNull (store !! k).

Record PartialSourceManga : Type := createPartialSourceManga {
  title : JSValue;
  image : string;
  mangaId : JSValue;
}.

Record HomeSection : Type := createHomeSection {
  hs_id : string;
  hs_title : string;
  items : option (list PartialSourceManga);
  containsMoreItems : bool;
  hs_type : string;
}.

Record Tag : Type := createTag { tag_id : string; tag_label : string }.

Record TagSection : Type := createTagSection {
  ts_id : string;
  ts_label : string;
  tags : list Tag;
}.

Record TrackedMangaChapterReadAction : Type := {
  act_mangaId : string;
  sourceId : string;
  sourceChapterId : string;
}.

(** What the plugin does to the host, in program order. *)
Inductive Event : Type :=
| EvSchedule (r : Request)                      (* requestManager.schedule(r, 1) *)
| EvSectionCallback (s : HomeSection)           (* sectionCallback(s) *)
| EvMangaUpdates (ids : list JSValue)           (* mangaUpdatesFoundCallback({ids}) *)
| EvDiscard (a : TrackedMangaChapterReadAction) (* actionQueue.discardChapterReadAction(a) *)
| EvRetry (a : TrackedMangaChapterReadAction).  (* actionQueue.retryChapterReadAction(a) *)

(** The host's request manager together with whatever is behind it (the
    interceptor it was created with, the rate limiter, the network and the
    remote server): one call either resolves with a response or rejects,
    and may change the remote state. *)
Class HostApp : Type := {
  World : Type;
  host_schedule : Request -> World -> Result Response * World;
}.

Section Monad.
Context `{HostApp}.

Record PState : Type := mkPState {
  world : World;
  trace : list Event;
}.

Definition M (A : Type) : Type := PState -> Result A * PState.

Definition ret {A} (a : A) : M A := fun s => (Ok a, s).
Definition throw {A} (e : Exn) : M A := fun s => (Throw e, s).
Definition bind {A B} (m : M A) (f : A -> M B) : M B :=
  fun s => match m s with
           | (Ok a, s') => f a s'
           | (Throw e, s') => (Throw e, s')
           end.
Definition lift {A} (r : Result A) : M A := fun s => (r, s).

(** [try { body } catch (error) { handler }] *)
Definition try_catch {A} (body : M A) (handler : Exn -> M A) : M A :=
  fun s => match body s with
           | (Ok a, s') => (Ok a, s')
           | (Throw e, s') => handler e s'
           end.

Definition emit (e : Event) : M unit :=
  fun s => (Ok tt, mkPState (world s) (trace s ++ [e])).

(** [await this.requestManager.schedule(request, 1)] *)
Definition schedule (r : Request) : M Response :=
  fun s =>
    let '(res, w') := host_schedule r (world s) in
    (res, mkPState w' (trace s ++ [EvSchedule r])).

Definition run {A} (m : M A) (w : World) : Result A * PState :=
  m (mkPState w []).
End Monad.

Declare Scope plugin_scope.
Delimit Scope plugin_scope with plugin.
Notation "x <- c ;; k" := (bind c (fun x => k))
  (at level 100, c at next level, right associativity) : plugin_scope.
Notation "c ;;; k" := (bind c (fun _ => k))
  (at level 100, right associativity) : plugin_scope.

(** ** [./Common]

    [getKomgaAPI], [getAuthorizationString], [getOptions] and
    [getServerUnavailableMangaTiles] are imported from [./Common], another
    module of the repository.  The plugin is written against them, so they
    are an interface here: [getKomgaAPI] answers the stored server URL, or
    [null] ([None]) when none is stored, which is what its callers test
    for; each of them may raise. *)

Record Options : Type := { showOnDeck : bool; showContinueReading : bool }.

Class Common : Type := {
  getKomgaAPI : SourceStateManager -> Result (option string);
  getAuthorizationString : SourceStateManager -> Result JSValue;
  getOptions : SourceStateManager -> Result Options;
  getServerUnavailableMangaTiles : list PartialSourceManga;
}.

(** [`${komgaAPI}`] *)
Definition api_str (komgaAPI : option string) : string :=
  match komgaAPI with Some s => s | None => "null" end.

(** The number of items requested for paged requests. *)
Definition PAGE_SIZE : Z := 40.

(** ** The request interceptors *)

Definition set_headers (r : Request) (h : gmap string JSValue) : Request :=
  createRequest (url r) (method r) (Some h) (param r) (data r).

(** [request?.headers?.authorization] *)
Definition authorization_of (r : Request) : JSValue :=
  match headers r with
  | None => JUndefined
  | Some h => default JUndefined (h !! "authorization")
  end.

Section SourceInterceptor.
Context `{Common}.

(** [KomgaRequestInterceptor.interceptRequest] of the source plugin. *)
Definition interceptRequest (stateManager : SourceStateManager)
    (request : Request) : Result Request :=
  let h := match headers request with None => ∅ | Some h => h end in
  let request := set_headers request h in
  if is_nullish (authorization_of request) then
    (let? a := getAuthorizationString stateManager in
     Ok (set_headers request (<["authorization" := a]> h)))%result
  else Ok request.
End SourceInterceptor.

(** The tracker plugin bundled in the same file. *)
Module Tracker.

Definition getAuthorizationString (stateManager : SourceStateManager) : Result JSValue :=
  let authorizationString := retrieve (keychain stateManager) "authorization" in
  match authorizationString with
  | JNull => Throw (HostError "Unset credentials in source settings")
  | _ => Ok authorizationString
  end.

Definition getKomgaAPI (stateManager : SourceStateManager) : Result JSValue :=
  let komgaAPI := retrieve (state stateManager) "komgaAPI" in
  match komgaAPI with
  | JNull => Throw (HostError "Unset server URL in source settings")
  | _ => Ok komgaAPI
  end.

(** The [interceptRequest] given to [App.createRequestManager]: an object
    spread, later entries win. *)
Definition interceptRequest (stateManager : SourceStateManager)
    (request : Request) : Result Request :=
  (let? authorizationString := getAuthorizationString stateManager in
   let base : gmap string JSValue :=
     match headers request with None => ∅ | Some h => h end in
   let fixed : gmap string JSValue :=
     <["accept" := JStr "application/json"]>
       (<["content-type" := JStr "application/json"]> base) in
   let auth : gmap string JSValue :=
     if is_nullish authorizationString then ∅
     else {["authorization" := authorizationString]} in
   Ok (set_headers request (auth ∪ fixed)))%result.

End Tracker.

(** ** Response normalization

    Every endpoint decodes the body with
    [typeof r.data === 'string' ? JSON.parse(r.data) : r.data]. *)
Definition normalize `{JSEngine} (body : JSValue) : Result JSValue :=
  match body with
  | JStr s => JSON_parse s
  | _ => Ok body
  end.

(** ** Tags *)

Definition is_word_char (c : ascii) : bool :=
  let n := nat_of_ascii c in
  ((48 <=? n) && (n <=? 57) || (65 <=? n) && (n <=? 90)
   || (97 <=? n) && (n <=? 122) || (n =? 95))%nat.

Definition toUpperCase_char (c : ascii) : ascii :=
  let n := nat_of_ascii c in
  if ((97 <=? n) && (n <=? 122))%nat then ascii_of_nat (n - 32) else c.

(** [tag.replace(/^\w/, (c) => c.toUpperCase())]; a value that is not a
    string has no [replace]. *)
Definition capitalize (tag : JSValue) : Result string :=
  match tag with
  | JStr EmptyString => Ok EmptyString
  | JStr (String c rest) =>
      Ok (if is_word_char c then String (toUpperCase_char c) rest else String c rest)
  | _ => Throw TypeError
  end.

Section Source.
Context `{JSEngine} `{HostApp} `{Common}.

Local Open Scope plugin_scope.

Definition GET (u : string) (p : option string) : Request :=
  createRequest u "GET" None p None.

(** [(elem: string) => App.createTag({ id: prefix + elem, label: capitalize(elem) })] *)
Definition plain_tag (prefix : string) (elem : JSValue) : Result Tag :=
  (let id := prefix ++ ToString elem in
   let? label := capitalize elem in
   Ok (createTag id label))%result.

(** [(elem: {name, id}) => App.createTag({ id: prefix + elem.id, label: capitalize(elem.name) })] *)
Definition named_tag (prefix : string) (elem : JSValue) : Result Tag :=
  (let? i := get_prop elem "id" in
   let id := prefix ++ ToString i in
   let? n := get_prop elem "name" in
   let? label := capitalize n in
   Ok (createTag id label))%result.

(** [tagSections.splice(2, 1)] on the four-element array. *)
Definition splice_2_1 {A} (l : list A) : list A :=
  firstn 2 l ++ skipn 3 l.

(** The part of [getTags] after the [try]/[catch]: decoding and section
    building; it throws on malformed data. *)
Definition tagSections_of (genresResponse tagsResponse collectionResponse
    libraryResponse : Response) : Result (list TagSection) :=
  (let? genresResult := normalize (resp_data genresResponse) in
   let? tagsResult := normalize (resp_data tagsResponse) in
   let? collectionResult := normalize (resp_data collectionResponse) in
   let? libraryResult := normalize (resp_data libraryResponse) in
   let? genres := js_map genresResult (plain_tag "genre-") in
   let? tags := js_map tagsResult (plain_tag "tag-") in
   let? content := get_prop collectionResult "content" in
   let? collections := js_map content (named_tag "collection-") in
   let? libraries := js_map libraryResult (named_tag "library-") in
   let tagSections :=
     [ createTagSection "0" "genres" genres;
       createTagSection "1" "tags" tags;
       createTagSection "2" "collections" collections;
       createTagSection "3" "libraries" libraries ] in
   let? n := get_prop content "length" in
   Ok (if js_le_num n 1 then splice_2_1 tagSections else tagSections))%result.

Definition serverUnavailableTags : list TagSection :=
  [ createTagSection "-1" "Server unavailable" [] ].

Definition getTags (stateManager : SourceStateManager) : M (list TagSection) :=
  responses <-
    try_catch
      (komgaAPI <- lift (getKomgaAPI stateManager);;
       genresResponse <- schedule (GET (api_str komgaAPI ++ "/genres") None);;
       tagsResponse <- schedule (GET (api_str komgaAPI ++ "/tags/series") None);;
       collectionResponse <- schedule (GET (api_str komgaAPI ++ "/collections") None);;
       libraryResponse <- schedule (GET (api_str komgaAPI ++ "/libraries") None);;
       ret (Some (genresResponse, tagsResponse, collectionResponse, libraryResponse)))
      (fun error => ret None);;
  match responses with
  | None => ret serverUnavailableTags
  | Some (genresResponse, tagsResponse, collectionResponse, libraryResponse) =>
      lift (tagSections_of genresResponse tagsResponse collectionResponse libraryResponse)
  end.

(** ** Home page *)

(** One tile per element of [result.content]. *)
Definition tile (thumbPath idProp : string) (serie : JSValue) : Result PartialSourceManga :=
  (let? metadata := get_prop serie "metadata" in
   let? title := get_prop metadata "title" in
   let? id := get_prop serie "id" in
   let? mangaId := get_prop serie idProp in
   Ok (createPartialSourceManga title
         (thumbPath ++ "/" ++ ToString id ++ "/thumbnail") mangaId))%result.

Definition tiles_of (thumbPath idProp : string) (data : Response)
    : Result (list PartialSourceManga) :=
  (let? result := normalize (resp_data data) in
   let? content := get_prop result "content" in
   let? series := js_iter content in
   rmap (tile thumbPath idProp) series)%result.

Definition unsetSection : HomeSection :=
  createHomeSection "unset"
    "Go to source settings to set your Komga server credentials."
    (Some getServerUnavailableMangaTiles) false "singleRowNormal".

Definition homeSections (o : Options) : list HomeSection :=
  (if showOnDeck o
   then [createHomeSection "ondeck" "On Deck" None false "singleRowNormal"] else [])
  ++ (if showContinueReading o
      then [createHomeSection "continue" "Continue Reading" None false "singleRowNormal"]
      else [])
  ++ [ createHomeSection "new" "Recently added series" None true "singleRowNormal";
       createHomeSection "updated" "Recently updated series" None true "singleRowNormal" ].

(** The [switch (section.id)]: request, thumbnail path and id property. *)
Definition sectionRequest (komgaAPI : string) (section : HomeSection)
    : Request * string * string :=
  if String.eqb (hs_id section) "ondeck" then
    (GET (komgaAPI ++ "/books/" ++ hs_id section) (Some "?page=0&size=20&deleted=false"),
     komgaAPI ++ "/books", "seriesId")
  else if String.eqb (hs_id section) "continue" then
    (GET (komgaAPI ++ "/books")
       (Some "?sort=readProgress.readDate,desc&read_status=IN_PROGRESS&page=0&size=20&deleted=false"),
     komgaAPI ++ "/books", "seriesId")
  else
    (GET (komgaAPI ++ "/series/" ++ hs_id section) (Some "?page=0&size=20&deleted=false"),
     komgaAPI ++ "/series", "id").

Definition with_items (section : HomeSection) (tiles : list PartialSourceManga) : HomeSection :=
  createHomeSection (hs_id section) (hs_title section) (Some tiles)
    (containsMoreItems section) (hs_type section).

(** [this.requestManager.schedule(request, 1)] without [await]: the
    outcome is kept in the promise. *)
Definition schedule_promise (r : Request) : M (Result Response) :=
  fun s =>
    let '(res, w') := host_schedule r (world s) in
    (Ok res, mkPState w' (trace s ++ [EvSchedule r])).

(** The synchronous loop: the empty section goes to the host, then its
    request is scheduled. *)
Fixpoint issueSections (komgaAPI : string) (sections : list HomeSection)
    : M (list (HomeSection * string * string * Result Response)) :=
  match sections with
  | [] => ret []
  | section :: rest =>
      emit (EvSectionCallback section);;;
      let '(request, thumbPath, idProp) := sectionRequest komgaAPI section in
      p <- schedule_promise request;;
      ps <- issueSections komgaAPI rest;;
      ret ((section, thumbPath, idProp, p) :: ps)
  end.

(** The [.then] handlers and [Promise.all]: every handler of a resolved
    request runs; the join rejects with the first rejection.  Completions
    are taken in section order. *)
Fixpoint settleSections
    (pending : list (HomeSection * string * string * Result Response))
    (rejected : option Exn) : M unit :=
  match pending with
  | [] => match rejected with None => ret tt | Some e => throw e end
  | (section, thumbPath, idProp, p) :: rest =>
      match p with
      | Throw e => settleSections rest (Some (default e rejected))
      | Ok data =>
          match tiles_of thumbPath idProp data with
          | Throw e => settleSections rest (Some (default e rejected))
          | Ok tiles =>
              emit (EvSectionCallback (with_items section tiles));;;
              settleSections rest rejected
          end
      end
  end.

Definition getHomePageSections (stateManager : SourceStateManager) : M unit :=
  komgaAPI <- lift (getKomgaAPI stateManager);;
  options <- lift (getOptions stateManager);;
  match komgaAPI with
  | None => emit (EvSectionCallback unsetSection)
  | Some komgaAPI =>
      promises <- issueSections komgaAPI (homeSections options);;
      settleSections promises None
  end.

(** ** Paging *)

(** [{ page: n }], or [undefined] for [None]. *)
Record PagedResults : Type := createPagedResults {
  pr_results : list PartialSourceManga;
  pr_metadata : option Z;
}.

(** [`?page=${page}&size=${PAGE_SIZE}&deleted=false`] *)
Definition pageParam (page : Z) : string :=
  "?page=" ++ Number_toString (inject_Z page)
  ++ "&size=" ++ Number_toString (inject_Z PAGE_SIZE) ++ "&deleted=false".

Definition getViewMoreItems (stateManager : SourceStateManager)
    (homepageSectionId : string) (metadata : option Z) : M PagedResults :=
  komgaAPI <- lift (getKomgaAPI stateManager);;
  let page := default 0 metadata in
  let request :=
    GET (api_str komgaAPI ++ "/series/" ++ homepageSectionId) (Some (pageParam page)) in
  data <- schedule request;;
  tiles <- lift (tiles_of (api_str komgaAPI ++ "/series") "id" data);;
  (* If no series were returned we are on the last page *)
  let metadata := if (length tiles =? 0)%nat then None else Some (page + 1) in
  ret (createPagedResults tiles metadata).

(** Modelled from the spec: the host's "load more" loop is not part of
    the repository; it asks for the next page as long as the previous
    answer carried a cursor, and collects the items. *)
Fixpoint viewMoreWalk (fuel : nat) (stateManager : SourceStateManager)
    (homepageSectionId : string) (metadata : option Z)
    : M (list PartialSourceManga * bool) :=
  match fuel with
  | O => ret ([], false)
  | S fuel =>
      r <- getViewMoreItems stateManager homepageSectionId metadata;;
      match pr_metadata r with
      | None => ret (pr_results r, true)
      | Some next =>
          more <- viewMoreWalk fuel stateManager homepageSectionId (Some next);;
          ret ((pr_results r ++ fst more)%list, snd more)
      end
  end.

(** ** Updated series *)

(** A [Date] is its time value in milliseconds; [None] is an invalid
    date ([NaN]). *)
Definition JSDate : Type := option Z.

(** [new Date(v)] *)
Definition new_Date (v : JSValue) : JSDate :=
  match v with
  | JStr s => Date_parse s
  | JArr _ | JObj _ => Date_parse (ToString v)
  | _ =>
      match ToNumber v with
      | Some t =>
          let ms := (Qnum t ÷ Zpos (Qden t)) in
          if Z.abs ms <=? 8640000000000000 then Some ms else None
      | None => None
      end
  end.

(** [a >= b] on dates: numeric on the time values, false with [NaN]. *)
Definition date_ge (a b : JSDate) : bool :=
  match a, b with
  | Some x, Some y => y <=? x
  | _, _ => false
  end.

(** [ids.includes(v)] for [ids: string[]]: a string is the same value
    only as an equal string. *)
Definition includes (ids : list string) (v : JSValue) : bool :=
  match v with
  | JStr s => existsb (String.eqb s) ids
  | _ => false
  end.

(** The [for (const serie of result.content)] loop of one page; the
    result is [foundIds] and [loadMore]. *)
Fixpoint scanPage (time : JSDate) (ids : list string) (series : list JSValue)
    (foundIds : list JSValue) : Result (list JSValue * bool) :=
  match series with
  | [] => Ok (foundIds, true)
  | serie :: rest =>
      (let? metadata := get_prop serie "metadata" in
       let? lastModified := get_prop metadata "lastModified" in
       let serieUpdated := new_Date lastModified in
       if date_ge serieUpdated time then
         if includes ids serie
         then scanPage time ids rest (foundIds ++ [serie])%list
         else scanPage time ids rest foundIds
       else Ok (foundIds, false))%result
  end.

Inductive Completion : Type := Finished | OutOfFuel.

(** The [while (loadMore)] loop; [fuel] bounds the number of pages. *)
Fixpoint updatedLoop (fuel : nat) (komgaAPI : option string) (time : JSDate)
    (ids : list string) (page : Z) (foundIds : list JSValue) : M Completion :=
  match fuel with
  | O => ret OutOfFuel
  | S fuel =>
      let request := GET (api_str komgaAPI ++ "/series/updated") (Some (pageParam page)) in
      data <- schedule request;;
      result <- lift (normalize (resp_data data));;
      content <- lift (get_prop result "content");;
      series <- lift (js_iter content);;
      scanned <- lift (scanPage time ids series foundIds);;
      let foundIds := fst scanned in
      (* If no series were returned we are on the last page *)
      let loadMore := if (length series =? 0)%nat then false else snd scanned in
      let page := page + 1 in
      (if (0 <? length foundIds)%nat then emit (EvMangaUpdates foundIds) else ret tt);;;
      if loadMore then updatedLoop fuel komgaAPI time ids page foundIds
      else ret Finished
  end.

Definition filterUpdatedManga (fuel : nat) (stateManager : SourceStateManager)
    (time : JSDate) (ids : list string) : M Completion :=
  komgaAPI <- lift (getKomgaAPI stateManager);;
  updatedLoop fuel komgaAPI time ids 0 [].

(** ** Progress *)

Inductive FormSections : Type :=
| komgaNotAvailableSection
| manageSection (value max : JSValue).

(** The [sections] closure of the form: it also stores the read count in
    [tempData], which [onSubmit] reads. *)
Definition formSections (komgaAPI : option string) (mangaId : string)
    : M (JSValue * FormSections) :=
  response <- schedule (GET (api_str komgaAPI ++ "/series/" ++ mangaId) None);;
  result <- lift (normalize (resp_data response));;
  let booksReadCount := nullish_or (opt_prop result "booksReadCount") (JInt 0) in
  if is_nullish (opt_prop result "id") then ret (booksReadCount, komgaNotAvailableSection)
  else
    ret (booksReadCount,
         manageSection (nullish_or (opt_prop result "booksReadCount") (JInt 0))
                       (opt_prop result "booksCount")).

Definition jsonHeaders : option (gmap string JSValue) :=
  Some {[ "content-type" := JStr "application/json" ]}.

Definition deleteReadProgress (komgaAPI : option string) (mangaId : string) : Request :=
  createRequest (api_str komgaAPI ++ "/series/" ++ mangaId ++ "/read-progress")
    "DELETE" jsonHeaders None None.

(** [{ 'page': null, 'completed': true }] *)
Definition completedBody : JSValue :=
  JObj [("page", JNull); ("completed", JBool true)].

Definition markRead (komgaAPI : option string) (bookId : string) : Request :=
  createRequest (api_str komgaAPI ++ "/books/" ++ bookId ++ "/read-progress")
    "PATCH" jsonHeaders None (Some completedBody).

(** The [for (const book of result.content)] loop of [onSubmit]. *)
Fixpoint markBooks (komgaAPI : option string) (progress : Q) (books : list JSValue)
    : M unit :=
  match books with
  | [] => ret tt
  | book :: rest =>
      metadata <- lift (get_prop book "metadata");;
      numberSort <- lift (get_prop metadata "numberSort");;
      (if js_le_num numberSort progress then
         id <- lift (get_prop book "id");;
         _ <- schedule (markRead komgaAPI (ToString id));;
         ret tt
       else ret tt);;;
      markBooks komgaAPI progress rest
  end.

(** [onSubmit] of the progress form.  [progress] is [values?.['progress']]
    ([None] when it is [null] or [undefined]); [booksReadCount] is
    [tempData?.booksReadCount]. *)
Definition onSubmit (komgaAPI : option string) (mangaId : string)
    (booksReadCount : JSValue) (progress : option Q) : M unit :=
  match progress with
  | None => ret tt
  | Some progress =>
      if js_eq_num progress booksReadCount then ret tt (* No changes *)
      else
        response <-
          schedule (GET (api_str komgaAPI ++ "/series/" ++ mangaId ++ "/books?unpaged=true") None);;
        result <- lift (normalize (resp_data response));;
        let content := opt_prop result "content" in
        if is_nullish content then ret tt
        else
          (* Setting all al unread first *)
          _ <- schedule (deleteReadProgress komgaAPI mangaId);;
          books <- lift (js_iter content);;
          markBooks komgaAPI progress books
  end.

(** ** The chapter-read action queue *)

Definition processAction (komgaAPI : option string)
    (readAction : TrackedMangaChapterReadAction) : M unit :=
  if negb (String.eqb (sourceId readAction) "Paperback") then
    emit (EvDiscard readAction)
  else
    try_catch
      (response <- schedule (markRead komgaAPI (sourceChapterId readAction));;
       if status response <? 400 then emit (EvDiscard readAction)
       else emit (EvRetry readAction))
      (fun error => emit (EvRetry readAction)).

Fixpoint processActions (komgaAPI : option string)
    (chapterReadActions : list TrackedMangaChapterReadAction) : M unit :=
  match chapterReadActions with
  | [] => ret tt
  | readAction :: rest =>
      processAction komgaAPI readAction;;;
      processActions komgaAPI rest
  end.

Definition processChapterReadActionQueue (stateManager : SourceStateManager)
    (chapterReadActions : list TrackedMangaChapterReadAction) : M unit :=
  komgaAPI <- lift (getKomgaAPI stateManager);;
  processActions komgaAPI chapterReadActions.
End Source.

(** ** Series details, chapters, pages and progress *)

Definition SUPPORTED_IMAGE_TYPES : list string :=
  ["image/jpeg"; "image/png"; "image/gif"; "image/webp"; "application/pdf"].

Definition toLowerCase_char (c : ascii) : ascii :=
  let n := nat_of_ascii c in
  if ((65 <=? n) && (n <=? 90))%nat then ascii_of_nat (n + 32) else c.

(** [s.toLowerCase()], on the ASCII letters. *)
Fixpoint toLowerCase (s : string) : string :=
  match s with
  | EmptyString => EmptyString
  | String c rest => String (toLowerCase_char c) (toLowerCase rest)
  end.

(** [komgaStatus.toLowerCase()]; only a string has the method. *)
Definition parseMangaStatus (komgaStatus : JSValue) : Result string :=
  match komgaStatus with
  | JStr s => Ok (toLowerCase s)
  | _ => Throw TypeError
  end.

(** The truth value of [v] in a condition. *)
Definition truthy (v : JSValue) : bool :=
  match v with
  | JUndefined | JNull => false
  | JBool b => b
  | JNum n => negb (Qeq_bool n 0)
  | JStr s => negb (String.eqb s EmptyString)
  | JArr _ | JObj _ => true
  end.

(** [v === 'literal'] *)
Definition strict_eq_str (v : JSValue) (s : string) : bool :=
  match v with
  | JStr t => String.eqb t s
  | _ => false
  end.

Record SourceManga : Type := createSourceManga {
  sm_id : string;
  titles : list JSValue;
  sm_image : string;
  sm_status : string;
  artist : string;
  author : string;
  desc : JSValue;
  sm_tags : list TagSection;
}.


Record ChapterDetails : Type := createChapterDetails {
  cd_id : string;
  cd_mangaId : string;
  pages : list string;
}.

Record MangaProgress : Type := createMangaProgress {
  mp_mangaId : string;
  lastReadChapterNumber : JSValue;
}.

Section Details.
Context `{JSEngine} `{HostApp} `{Common}.

(** [parseFloat] of the engine, on the string form of its argument
    ([None] is [NaN]), and [parseLangCode] of [./Languages]. *)
Variable parseFloat : string -> option Q.
Variable parseLangCode : JSValue -> Result string.

Local Open Scope plugin_scope.

(** [names.join(', ')] *)
Definition js_join (sep : string) (l : list JSValue) : string :=
  join sep (List.map (fun x => match x with
                               | JUndefined | JNull => EmptyString
                               | _ => ToString x
                               end) l).

(** The [for (const entry of booksMetadata.authors)] loop. *)
Fixpoint collectCredits (entries : list JSValue) (authors artists : list JSValue)
    : Result (list JSValue * list JSValue) :=
  match entries with
  | [] => Ok (authors, artists)
  | entry :: rest =>
      (let? role := get_prop entry "role" in
       let? authors :=
         if strict_eq_str role "writer"
         then (let? name := get_prop entry "name" in Ok (authors ++ [name])%list)
         else Ok authors in
       let? artists :=
         if strict_eq_str role "penciller"
         then (let? name := get_prop entry "name" in Ok (artists ++ [name])%list)
         else Ok artists in
       collectCredits rest authors artists)%result
  end.

(** The decoding part of [getMangaDetails]. *)
Definition mangaDetails_of (komgaAPI : option string) (mangaId : string)
    (response : Response) : Result SourceManga :=
  (let? result := normalize (resp_data response) in
   let? metadata := get_prop result "metadata" in
   let? booksMetadata := get_prop result "booksMetadata" in
   let? genresValue := get_prop metadata "genres" in
   let? genres := js_map genresValue (plain_tag "genre-") in
   let? tagsValue := get_prop metadata "tags" in
   let? tags := js_map tagsValue (plain_tag "tag-") in
   let? authorsValue := get_prop booksMetadata "authors" in
   let? entries := js_iter authorsValue in
   let? credits := collectCredits entries [] [] in
   let? title := get_prop metadata "title" in
   let? komgaStatus := get_prop metadata "status" in
   let? status := parseMangaStatus komgaStatus in
   let? summary := get_prop metadata "summary" in
   let? desc := if truthy summary then Ok summary
                else get_prop booksMetadata "summary" in
   Ok (createSourceManga mangaId [title]
         (api_str komgaAPI ++ "/series/" ++ mangaId ++ "/thumbnail")
         status (js_join ", " (snd credits)) (js_join ", " (fst credits)) desc
         [ createTagSection "0" "genres" genres;
           createTagSection "1" "tags" tags ]))%result.

Definition getMangaDetails (stateManager : SourceStateManager) (mangaId : string)
    : M SourceManga :=
  komgaAPI <- lift (getKomgaAPI stateManager);;
  response <- schedule (GET (api_str komgaAPI ++ "/series/" ++ mangaId) None);;
  lift (mangaDetails_of komgaAPI mangaId response).



Definition serieRequest (komgaAPI : option string) (mangaId : string) : Request :=
  GET (api_str komgaAPI ++ "/series/" ++ mangaId) None.


(** The URL pushed for one entry of the page list. *)
Definition pageURL (komgaAPI : option string) (chapterId : string) (page : JSValue)
    : Result string :=
  (let? mediaType := get_prop page "mediaType" in
   let? number := get_prop page "number" in
   Ok (api_str komgaAPI ++ "/books/" ++ chapterId ++ "/pages/" ++ ToString number
       ++ (if includes SUPPORTED_IMAGE_TYPES mediaType
           then EmptyString else "?convert=png")))%result.

Definition pagesRequest (komgaAPI : option string) (chapterId : string) : Request :=
  GET (api_str komgaAPI ++ "/books/" ++ chapterId ++ "/pages") None.

Definition getChapterDetails (stateManager : SourceStateManager)
    (mangaId chapterId : string) : M ChapterDetails :=
  komgaAPI <- lift (getKomgaAPI stateManager);;
  data <- schedule (pagesRequest komgaAPI chapterId);;
  result <- lift (normalize (resp_data data));;
  pages <- lift (let? entries := js_iter result in
                 rmap (pageURL komgaAPI chapterId) entries)%result;;
  (* Determine the preferred reading direction which is only available in
     the serie metadata *)
  serieResponse <- schedule (serieRequest komgaAPI mangaId);;
  serieResult <- lift (normalize (resp_data serieResponse));;
  longStrip <- lift (let? metadata := get_prop serieResult "metadata" in
                     let? readingDirection := get_prop metadata "readingDirection" in
                     Ok (includes ["VERTICAL"; "WEBTOON"] readingDirection))%result;;
  ret (createChapterDetails chapterId mangaId pages).

Definition progressRequest (komgaAPI : string) (mangaId : string) : Request :=
  GET (komgaAPI ++ "/series/" ++ mangaId ++ "/") None.

(** [None] is the [undefined] answer. *)
Definition getMangaProgress (stateManager : SourceStateManager) (mangaId : string)
    : M (option MangaProgress) :=
  komgaAPI <- lift (getKomgaAPI stateManager);;
  match komgaAPI with
  | None => ret None
  | Some komgaAPI =>
      response <- schedule (progressRequest komgaAPI mangaId);;
      result <- lift (normalize (resp_data response));;
      if is_nullish (opt_prop result "booksCount") then ret None
      else ret (Some (createMangaProgress mangaId (opt_prop result "booksReadCount")))
  end.
End Details.

(** ** The chapter-read action queue of the bundled tracker *)
Module TrackerQueue.
Section Queue.
Context `{JSEngine} `{HostApp}.

Local Open Scope plugin_scope.

(** [{ page: 1, completed: true }], without headers. *)
Definition markRead (komgaAPI : string) (bookId : string) : Request :=
  createRequest (komgaAPI ++ "/books/" ++ bookId ++ "/read-progress") "PATCH" None None
    (Some (JObj [("page", JInt 1); ("completed", JBool true)])).

Definition processAction (komgaAPI : string)
    (readAction : TrackedMangaChapterReadAction) : M unit :=
  if negb (String.eqb (sourceId readAction) "Paperback") then
    emit (EvDiscard readAction)
  else
    try_catch
      (response <- schedule (markRead komgaAPI (sourceChapterId readAction));;
       if status response <? 400 then emit (EvDiscard readAction)
       else emit (EvRetry readAction))
      (fun error => emit (EvRetry readAction)).

Fixpoint processActions (komgaAPI : string)
    (chapterReadActions : list TrackedMangaChapterReadAction) : M unit :=
  match chapterReadActions with
  | [] => ret tt
  | readAction :: rest =>
      processAction komgaAPI readAction;;;
      processActions komgaAPI rest
  end.

(** The server URL is read with the tracker's own [getKomgaAPI], which
    raises when none is stored. *)
Definition processChapterReadActionQueue (stateManager : SourceStateManager)
    (chapterReadActions : list TrackedMangaChapterReadAction) : M unit :=
  komgaAPI <- lift (Tracker.getKomgaAPI stateManager);;
  processActions (ToString komgaAPI) chapterReadActions.
End Queue.
End TrackerQueue.

(** ** A reference engine

    An executable model of the engine's built-ins, used to run the plugin
    on concrete inputs.  The general statements below hold for every
    [JSEngine]; this one fixes the behaviour on the inputs that occur in
    practice: RFC 8259 JSON texts, decimal number literals and the UTC
    timestamps the server sends. *)
Module Engine.

Definition is_ws (c : ascii) : bool :=
  let n := nat_of_ascii c in
  ((n =? 32) || (n =? 9) || (n =? 10) || (n =? 13))%nat.

Fixpoint skip_ws (s : string) : string :=
  match s with
  | String c rest => if is_ws c then skip_ws rest else s
  | EmptyString => s
  end.

Definition digit_of (c : ascii) : option Z :=
  let n := nat_of_ascii c in
  if ((48 <=? n) && (n <=? 57))%nat then Some (Z.of_nat n - 48) else None.

(** Reads a run of digits: value so far, number of digits, rest. *)
Fixpoint digits (s : string) (acc : Z) (count : nat) : Z * nat * string :=
  match s with
  | String c rest =>
      match digit_of c with
      | Some d => digits rest (10 * acc + d) (S count)
      | None => (acc, count, s)
      end
  | EmptyString => (acc, count, s)
  end.

(** [m * 10^e] as a reduced fraction. *)
Definition decimal (m e : Z) : Q :=
  Qred (if 0 <=? e then inject_Z (m * 10 ^ e)
        else Qmake m (Z.to_pos (10 ^ (- e)))).

(** The part of a number literal after the sign: digits, an optional
    fraction and an optional exponent.  [strict] forbids leading zeros,
    as JSON does. *)
Definition unsigned_number (strict : bool) (s : string) : option (Q * string) :=
  let '(i, ni, rest) := digits s 0 0%nat in
  if (ni =? 0)%nat then None
  else if strict && (1 <? ni)%nat
          && match s with String "0" _ => true | _ => false end then None
  else
    let '(m, nf, rest) :=
      match rest with
      | String "." rest' =>
          let '(m, nf, rest'') := digits rest' i 0%nat in
          if (nf =? 0)%nat then (i, 0%nat, rest) else (m, nf, rest'')
      | _ => (i, 0%nat, rest)
      end in
    let after_exp (neg : bool) (r : string) (fallback : Q * string) :=
      let '(e, ne, r') := digits r 0 0%nat in
      if (ne =? 0)%nat then fallback
      else (decimal m ((if neg then - e else e) - Z.of_nat nf), r') in
    let plain := (decimal m (- Z.of_nat nf), rest) in
    match rest with
    | String c rest' =>
        if (Ascii.eqb c "e" || Ascii.eqb c "E")%bool then
          match rest' with
          | String "-" r => Some (after_exp true r plain)
          | String "+" r => Some (after_exp false r plain)
          | _ => Some (after_exp false rest' plain)
          end
        else Some plain
    | EmptyString => Some plain
    end.

Definition number (s : string) : option (Q * string) :=
  match s with
  | String "-" rest =>
      match unsigned_number true rest with
      | Some (q, r) => Some (Qred (- q), r)
      | None => None
      end
  | _ => unsigned_number true s
  end.

Definition hex_of (c : ascii) : option N :=
  let n := nat_of_ascii c in
  if ((48 <=? n) && (n <=? 57))%nat then Some (N.of_nat (n - 48))
  else if ((65 <=? n) && (n <=? 70))%nat then Some (N.of_nat (n - 55))
  else if ((97 <=? n) && (n <=? 102))%nat then Some (N.of_nat (n - 87))
  else None.

(** UTF-8 bytes of a code unit below 0x10000. *)
Definition utf8 (u : N) : string :=
  if (u <? 128)%N then String (ascii_of_N u) EmptyString
  else if (u <? 2048)%N then
    String (ascii_of_N (192 + u / 64)) (String (ascii_of_N (128 + u mod 64)) EmptyString)
  else
    String (ascii_of_N (224 + u / 4096))
      (String (ascii_of_N (128 + (u / 64) mod 64))
         (String (ascii_of_N (128 + u mod 64)) EmptyString)).

Definition dquote : ascii := ascii_of_nat 34.
Definition backslash : ascii := ascii_of_nat 92.

(** The characters of a string literal after the opening quote. *)
Fixpoint string_body (s : string) : option (string * string) :=
  match s with
  | EmptyString => None
  | String c rest =>
      if Ascii.eqb c dquote then Some (EmptyString, rest)
      else if Ascii.eqb c backslash then
        match rest with
        | String e rest' =>
            let simple (x : ascii) :=
              match string_body rest' with
              | Some (t, r) => Some (String x t, r)
              | None => None
              end in
            if Ascii.eqb e dquote then simple dquote
            else if Ascii.eqb e backslash then simple backslash
            else if Ascii.eqb e "/" then simple "/"%char
            else if Ascii.eqb e "b" then simple (ascii_of_nat 8)
            else if Ascii.eqb e "f" then simple (ascii_of_nat 12)
            else if Ascii.eqb e "n" then simple (ascii_of_nat 10)
            else if Ascii.eqb e "r" then simple (ascii_of_nat 13)
            else if Ascii.eqb e "t" then simple (ascii_of_nat 9)
            else if Ascii.eqb e "u" then
              match rest' with
              | String h1 (String h2 (String h3 (String h4 rest''))) =>
                  match hex_of h1, hex_of h2, hex_of h3, hex_of h4 with
                  | Some a, Some b, Some c', Some d =>
                      match string_body rest'' with
                      | Some (t, r) =>
                          Some ((utf8 (((a * 16 + b) * 16 + c') * 16 + d) ++ t)%string, r)
                      | None => None
                      end
                  | _, _, _, _ => None
                  end
              | _ => None
              end
            else None
        | EmptyString => None
        end
      else if (nat_of_ascii c <? 32)%nat then None
      else
        match string_body rest with
        | Some (t, r) => Some (String c t, r)
        | None => None
        end
  end.

(** [obj[k] = v] while a literal is read: a repeated key keeps its last
    value. *)
Definition set_field (k : string) (v : JSValue) (fs : list (string * JSValue))
    : list (string * JSValue) :=
  (List.filter (fun kv => negb (String.eqb (fst kv) k)) fs ++ [(k, v)])%list.

Definition literal (word : string) (v : JSValue) (s : string) : option (JSValue * string) :=
  if String.prefix word s
  then Some (v, String.substring (String.length word) (String.length s - String.length word) s)
  else None.

(** A value, the elements of an array after its bracket, and the members
    of an object after its brace. *)
Fixpoint value (fuel : nat) (s : string) : option (JSValue * string) :=
  match fuel with
  | O => None
  | S fuel =>
      match skip_ws s with
      | String c rest as s' =>
          if Ascii.eqb c "n" then literal "null" JNull s'
          else if Ascii.eqb c "t" then literal "true" (JBool true) s'
          else if Ascii.eqb c "f" then literal "false" (JBool false) s'
          else if Ascii.eqb c dquote then
            match string_body rest with
            | Some (t, r) => Some (JStr t, r)
            | None => None
            end
          else if Ascii.eqb c "[" then
            match skip_ws rest with
            | String "]" r => Some (JArr [], r)
            | _ => elements fuel rest []
            end
          else if Ascii.eqb c "{" then
            match skip_ws rest with
            | String "}" r => Some (JObj [], r)
            | _ => members fuel rest []
            end
          else
            match number s' with
            | Some (q, r) => Some (JNum q, r)
            | None => None
            end
      | EmptyString => None
      end
  end
with elements (fuel : nat) (s : string) (acc : list JSValue) : option (JSValue * string) :=
  match fuel with
  | O => None
  | S fuel =>
      match value fuel s with
      | Some (v, r) =>
          match skip_ws r with
          | String "," r' => elements fuel r' (acc ++ [v])%list
          | String "]" r' => Some (JArr (acc ++ [v])%list, r')
          | _ => None
          end
      | None => None
      end
  end
with members (fuel : nat) (s : string) (acc : list (string * JSValue))
    : option (JSValue * string) :=
  match fuel with
  | O => None
  | S fuel =>
      match skip_ws s with
      | String c rest =>
          if Ascii.eqb c dquote then
            match string_body rest with
            | Some (k, r) =>
                match skip_ws r with
                | String ":" r' =>
                    match value fuel r' with
                    | Some (v, r'') =>
                        match skip_ws r'' with
                        | String "," r3 => members fuel r3 (set_field k v acc)
                        | String "}" r3 => Some (JObj (set_field k v acc), r3)
                        | _ => None
                        end
                    | None => None
                    end
                | _ => None
                end
            | None => None
            end
          else None
      | EmptyString => None
      end
  end.

(** [JSON.parse(text)] *)
Definition parse (text : string) : Result JSValue :=
  match value (2 * String.length text + 2) text with
  | Some (v, rest) =>
      match skip_ws rest with
      | EmptyString => Ok v
      | _ => Throw SyntaxError
      end
  | None => Throw SyntaxError
  end.

Definition string_of_Z (z : Z) : string :=
  DecimalString.NilZero.string_of_int (Z.to_int z).

(** The digits of [r / d] after the decimal point, at most [n] of them. *)
Fixpoint fraction_digits (n : nat) (r d : Z) : string :=
  match n with
  | O => EmptyString
  | S n =>
      if r =? 0 then EmptyString
      else string_of_Z (10 * r / d) ++ fraction_digits n (10 * r mod d) d
  end.

(** [String(n)] for a number: integers in decimal, other values with
    their decimal digits (at most 17 of them). *)
Definition number_toString (q : Q) : string :=
  let q := Qred q in
  let n := Qnum q in
  let d := Zpos (Qden q) in
  if d =? 1 then string_of_Z n
  else
    let sign := if n <? 0 then "-" else EmptyString in
    let whole := string_of_Z (Z.abs n / d) in
    let frac := fraction_digits 17 (Z.abs n mod d) d in
    sign ++ whole ++ "." ++ frac.

Fixpoint rev_string (s acc : string) : string :=
  match s with
  | EmptyString => acc
  | String c rest => rev_string rest (String c acc)
  end.

Definition trim (s : string) : string :=
  rev_string (skip_ws (rev_string (skip_ws s) EmptyString)) EmptyString.

(** [Number(s)] for a string: the empty string is 0, a decimal literal is
    its value, anything else is [NaN]. *)
Definition stringToNumber (s : string) : option Q :=
  match trim s with
  | EmptyString => Some 0%Q
  | String c rest as t =>
      let signed (neg : bool) (body : string) :=
        match unsigned_number false body with
        | Some (q, EmptyString) => Some (if neg then Qred (- q) else q)
        | _ => None
        end in
      if Ascii.eqb c "-" then signed true rest
      else if Ascii.eqb c "+" then signed false rest
      else signed false t
  end.

(** Days from 1970-01-01 to the civil date [y]-[m]-[d]. *)
Definition days_from_civil (y m d : Z) : Z :=
  let y' := if m <=? 2 then y - 1 else y in
  let era := y' / 400 in
  let yoe := y' - era * 400 in
  let doy := (153 * (if 2 <? m then m - 3 else m + 9) + 2) / 5 + d - 1 in
  let doe := yoe * 365 + yoe / 4 - yoe / 100 + doy in
  era * 146097 + doe - 719468.

Definition days_in_month (y m : Z) : Z :=
  if m =? 2 then
    if ((y mod 4 =? 0) && negb (y mod 100 =? 0) || (y mod 400 =? 0))%bool then 29 else 28
  else if ((m =? 4) || (m =? 6) || (m =? 9) || (m =? 11))%bool then 30
  else 31.

(** Exactly [n] digits. *)
Definition fixed_digits (n : nat) (s : string) : option (Z * string) :=
  let '(v, count, _) := digits (String.substring 0 n s) 0 0%nat in
  if (count =? n)%nat
  then Some (v, String.substring n (String.length s - n) s)
  else None.

Definition expect (c : ascii) (s : string) : option string :=
  match s with
  | String c' rest => if Ascii.eqb c c' then Some rest else None
  | EmptyString => None
  end.

(** [Date.parse(s)] for [YYYY-MM-DDTHH:MM:SS[.mmm]Z]; [None] otherwise. *)
Definition date_parse (s : string) : option Z :=
  '(y, s) ← fixed_digits 4 s; s ← expect "-" s;
  '(m, s) ← fixed_digits 2 s; s ← expect "-" s;
  '(d, s) ← fixed_digits 2 s; s ← expect "T" s;
  '(h, s) ← fixed_digits 2 s; s ← expect ":" s;
  '(mi, s) ← fixed_digits 2 s; s ← expect ":" s;
  '(sec, s) ← fixed_digits 2 s;
  '(ms, s) ← match s with
             | String "." s' => fixed_digits 3 s'
             | _ => Some (0, s)
             end;
  match s with
  | String "Z" EmptyString =>
      if ((1 <=? m) && (m <=? 12) && (1 <=? d) && (d <=? days_in_month y m)
          && (h <=? 23) && (mi <=? 59) && (sec <=? 59))%bool
      then Some ((((days_from_civil y m d * 24 + h) * 60 + mi) * 60 + sec) * 1000 + ms)
      else None
  | _ => None
  end.

#[export] Instance engine : JSEngine := {|
  JSON_parse := parse;
  Number_toString := number_toString;
  StringToNumber := stringToNumber;
  Date_parse := date_parse;
|}.
End Engine.

(** ** Reference hosts

    Small executable hosts on which the plugin is run: a stored
    configuration for [./Common], a host that answers from a script, a
    stateless paged listing, and a library that keeps the read state of
    the books of one series. *)
Module Stored.

(** Modelled from the spec: the server configuration is the stored base
    URL and the stored credentials; a missing URL is answered with
    [null], missing credentials raise. *)
#[export] Instance common : Common := {|
  getKomgaAPI sm :=
    Ok (match retrieve (state sm) "komgaAPI" with
        | JStr s => Some s
        | _ => None
        end);
  getAuthorizationString := Tracker.getAuthorizationString;
  getOptions sm :=
    Ok {| showOnDeck := match retrieve (state sm) "showOnDeck" with
                        | JBool b => b | _ => false end;
          showContinueReading := match retrieve (state sm) "showContinueReading" with
                                 | JBool b => b | _ => false end |};
  getServerUnavailableMangaTiles :=
    [ createPartialSourceManga (JStr "Server") EmptyString (JStr "placeholder-id") ];
|}.

Definition api : string := "http://komga.local/api/v1".

Definition unconfigured : SourceStateManager :=
  {| state := ∅; keychain := ∅ |}.

Definition configured : SourceStateManager :=
  {| state := {[ "komgaAPI" := JStr api ]};
     keychain := {[ "authorization" := JStr "Basic c3RvcmVkOnNlY3JldA==" ]} |}.
End Stored.

Module Scripted.

(** The outcomes of the next calls, in order; once the script is used up
    every call is rejected. *)
#[export] Instance host : HostApp := {|
  World := list (Result Response);
  host_schedule _ w :=
    match w with
    | [] => (Throw (TransportError "connection refused"), [])
    | r :: rest => (r, rest)
    end;
|}.

Definition ok (d : JSValue) : Result Response := Ok (createResponse d 200).
End Scripted.

Module PageServer.

Section Pages.
Context `{JSEngine}.
Variable pages : list (list JSValue).

(** The page asked for by [?page=i&size=40&deleted=false]; a page past
    the last one is empty. *)
Definition page_of (p : option string) : list JSValue :=
  match find (fun i => bool_decide (p = Some (pageParam (Z.of_nat i))))
             (seq 0 (length pages)) with
  | Some i => nth i pages []
  | None => []
  end.

Definition host : HostApp := {|
  World := unit;
  host_schedule r w :=
    (Ok (createResponse (JObj [("content", JArr (page_of (param r)))]) 200), w);
|}.
End Pages.
End PageServer.

Module Library.

Record Book : Type := {
  book_id : string;
  numberSort : Q;
  completed : bool;
}.

Definition series : string := "0F3K1MTCHS2QN".

Definition book_json (b : Book) : JSValue :=
  JObj [ ("id", JStr (book_id b));
         ("seriesId", JStr series);
         ("metadata", JObj [("numberSort", JNum (numberSort b))]);
         ("readProgress", if completed b then JObj [("completed", JBool true)] else JNull) ].

Definition set_completed (c : bool) (b : Book) : Book :=
  {| book_id := book_id b; numberSort := numberSort b; completed := c |}.

(** Modelled from the spec: the remote read-progress endpoints.
    [DELETE /series/{id}/read-progress] marks every book of the series
    unread; [PATCH /books/{id}/read-progress] with [completed: true]
    marks that book read; the series and the book listing answer the
    current state. *)
Definition serve (r : Request) (books : list Book) : Result Response * list Book :=
  if bool_decide (method r = "GET" ∧ url r = Stored.api ++ "/series/" ++ series) then
    (Ok (createResponse
           (JObj [ ("id", JStr series);
                   ("booksCount", JInt (Z.of_nat (length books)));
                   ("booksReadCount",
                    JInt (Z.of_nat (length (List.filter completed books)))) ]) 200),
     books)
  else if bool_decide (method r = "GET"
                       ∧ url r = Stored.api ++ "/series/" ++ series ++ "/books?unpaged=true") then
    (Ok (createResponse (JObj [("content", JArr (map book_json books))]) 200), books)
  else if bool_decide (method r = "DELETE"
                       ∧ url r = Stored.api ++ "/series/" ++ series ++ "/read-progress") then
    (Ok (createResponse JNull 204), map (set_completed false) books)
  else if bool_decide (method r = "PATCH") then
    let hit (b : Book) :=
      bool_decide (url r = Stored.api ++ "/books/" ++ book_id b ++ "/read-progress") in
    if existsb hit books then
      let c := match data r with
               | Some d => match opt_prop d "completed" with JBool c => c | _ => false end
               | None => false
               end in
      (Ok (createResponse JNull 204),
       map (fun b => if hit b then set_completed c b else b) books)
    else (Ok (createResponse JNull 404), books)
  else (Ok (createResponse JNull 404), books).

#[export] Instance host : HostApp := {|
  World := list Book;
  host_schedule := serve;
|}.

Definition read_state (books : list Book) (id : string) : option bool :=
  completed <$> find (fun b => String.eqb (book_id b) id) books.
End Library.

(** ** Vocabulary of the statements *)

(** The requests handed to the request manager, in order. *)
Definition requests_of (tr : list Event) : list Request :=
  omap (fun e => match e with EvSchedule r => Some r | _ => None end) tr.

(** The identifier lists reported to [mangaUpdatesFoundCallback]. *)
Definition updates_of (tr : list Event) : list (list JSValue) :=
  omap (fun e => match e with EvMangaUpdates ids => Some ids | _ => None end) tr.

(** The sections handed to [sectionCallback]. *)
Definition sections_of (tr : list Event) : list HomeSection :=
  omap (fun e => match e with EvSectionCallback s => Some s | _ => None end) tr.

Inductive Disposition : Type := Discarded | Retried.

(** The dispositions given to the action queue, in order. *)
Definition dispositions_of (tr : list Event)
    : list (TrackedMangaChapterReadAction * Disposition) :=
  omap (fun e => match e with
                 | EvDiscard a => Some (a, Discarded)
                 | EvRetry a => Some (a, Retried)
                 | _ => None
                 end) tr.

Definition fromPaperback (a : TrackedMangaChapterReadAction) : bool :=
  String.eqb (sourceId a) "Paperback".

(** A write succeeded: it resolved with a status below 400. *)
Definition succeeded (res : Result Response) : bool :=
  match res with
  | Ok r => status r <? 400
  | Throw _ => false
  end.

(** The disposition each action is expected to get, given the outcomes of
    the writes of the actions that come from this source. *)
Fixpoint expected_dispositions (queue : list TrackedMangaChapterReadAction)
    (outcomes : list (Result Response))
    : list (TrackedMangaChapterReadAction * Disposition) :=
  match queue with
  | [] => []
  | a :: rest =>
      if fromPaperback a then
        match outcomes with
        | res :: outcomes' =>
            (a, if succeeded res then Discarded else Retried)
              :: expected_dispositions rest outcomes'
        | [] => []
        end
      else (a, Discarded) :: expected_dispositions rest outcomes
  end.

(** The host answered the requests [rs], in this order, with [outcomes],
    going from world [w] to world [w']. *)
Inductive answers `{HostApp} : World -> list Request -> list (Result Response) -> World -> Prop :=
| answers_nil w : answers w [] [] w
| answers_cons w r res w' rs outcomes w'' :
    host_schedule r w = (res, w') ->
    answers w' rs outcomes w'' ->
    answers w (r :: rs) (res :: outcomes) w''.

(** The host rejects no request. *)
Definition neverRejects `{HostApp} : Prop :=
  forall r w, is_ok (fst (host_schedule r w)) = true.

(** The host rejects every request. *)
Definition alwaysRejects `{HostApp} : Prop :=
  forall r w, is_ok (fst (host_schedule r w)) = false.

Section Vocabulary.
Context `{JSEngine}.

(** [book.metadata.numberSort] *)
Definition sortKey_of (book : JSValue) : Result JSValue :=
  (let? metadata := get_prop book "metadata" in get_prop metadata "numberSort")%result.

(** The chapters at or below the target: [book.metadata.numberSort <= target]. *)
Definition upToTarget (target : Q) (book : JSValue) : bool :=
  match sortKey_of book with
  | Ok k => js_le_num k target
  | Throw _ => false
  end.

(** [`${book.id}`] *)
Definition bookId_of (book : JSValue) : string :=
  ToString (opt_prop book "id").

(** [new Date(serie.metadata.lastModified)] *)
Definition serieUpdated (serie : JSValue) : Result JSDate :=
  (let? metadata := get_prop serie "metadata" in
   let? lastModified := get_prop metadata "lastModified" in
   Ok (new_Date lastModified))%result.

(** The series was modified at or after the watermark. *)
Definition notBefore (time : JSDate) (serie : JSValue) : Prop :=
  exists d, serieUpdated serie = Ok d /\ date_ge d time = true.

(** The list request of [getViewMoreItems] for one page. *)
Definition viewMoreRequest (komgaAPI : option string) (homepageSectionId : string)
    (page : Z) : Request :=
  GET (api_str komgaAPI ++ "/series/" ++ homepageSectionId) (Some (pageParam page)).

Definition booksRequest (komgaAPI : option string) (mangaId : string) : Request :=
  GET (api_str komgaAPI ++ "/series/" ++ mangaId ++ "/books?unpaged=true") None.
End Vocabulary.

Section PagedListing.
Context `{JSEngine} `{HostApp}.

(** The host serves the listing [pages] of a section: page [i] decodes to
    the [i]-th element, and the page after the last one is empty. *)
Definition servesPages (komgaAPI : option string) (homepageSectionId : string)
    (pages : list (list PartialSourceManga)) : Prop :=
  forall (i : nat) (w : World), (i <= length pages)%nat ->
    exists data w',
      host_schedule (viewMoreRequest komgaAPI homepageSectionId (Z.of_nat i)) w = (Ok data, w')
      /\ tiles_of (api_str komgaAPI ++ "/series") "id" data = Ok (nth i pages []).
End PagedListing.

Module Offline.

(** A server that cannot be reached: every request is rejected. *)
#[export] Instance host : HostApp := {|
  World := unit;
  host_schedule _ w := (Throw (TransportError "connection refused"), w);
|}.
End Offline.

(** ** Vocabulary of the further statements *)

(** The header set of a request, empty when it has none. *)
Definition headers_of (r : Request) : gmap string JSValue :=
  default ∅ (headers r).




Section WalkVocabulary.
Context `{JSEngine} `{HostApp}.

(** The series was modified strictly before the watermark (or its date is
    invalid): the comparison [serieUpdated >= time] is false. *)
Definition stale (time : option Z) (serie : JSValue) : Prop :=
  exists d, serieUpdated serie = Ok d /\ date_ge d time = false.

(** A page that ends the update walk: it is empty, or it holds a stale
    series after series that are all at or after the watermark. *)
Definition endsWalk (time : option Z) (page : list JSValue) : Prop :=
  page = []
  \/ exists before x after,
       page = (before ++ x :: after)%list
       /\ Forall (notBefore time) before /\ stale time x.

Definition updatedRequest (komgaAPI : option string) (page : Z) : Request :=
  GET (api_str komgaAPI ++ "/series/updated") (Some (pageParam page)).

(** The host answers the updated-series listing [pages]. *)
Definition servesUpdated (komgaAPI : option string) (pages : list (list JSValue)) : Prop :=
  forall (i : nat) (w : World), (i < length pages)%nat ->
    exists data w' result,
      host_schedule (updatedRequest komgaAPI (Z.of_nat i)) w = (Ok data, w')
      /\ normalize (resp_data data) = Ok result
      /\ get_prop result "content" = Ok (JArr (nth i pages [])).

End WalkVocabulary.

Section ListVocabulary.
Context `{JSEngine}.

(** The answer to the chapter-list request cannot be used: the request was
    rejected, the body does not decode, or it has no [content]. *)
Definition withoutContent (res : Result Response) : Prop :=
  match res with
  | Throw _ => True
  | Ok response =>
      match normalize (resp_data response) with
      | Throw _ => True
      | Ok result => is_nullish (opt_prop result "content") = true
      end
  end.
End ListVocabulary.

(** ** Sample data *)

(** A request that brings its own credentials, as the credential check of
    the settings menu does. *)
Definition callerAuthorized : Request :=
  createRequest (Stored.api ++ "/users/me") "GET"
    (Some {[ "authorization" := JStr "Basic Y2FsbGVyOnRyaWFs" ]}) None None.

(** The JSON text of a string without special characters. *)
Definition quoted (s : string) : string :=
  String Engine.dquote (s ++ String Engine.dquote EmptyString).

(** Four chapters of the sample series, all read. *)
Definition fourChapters : list Library.Book :=
  [ {| Library.book_id := "0F3K1MTCJ01"; Library.numberSort := 1; Library.completed := true |};
    {| Library.book_id := "0F3K1MTCJ02"; Library.numberSort := 2; Library.completed := true |};
    {| Library.book_id := "0F3K1MTCJ03"; Library.numberSort := 3; Library.completed := true |};
    {| Library.book_id := "0F3K1MTCJ04"; Library.numberSort := 4; Library.completed := true |} ].

(** A series of the listing, with its title as identifier. *)
Definition sampleSerie (id lastModified : string) : JSValue :=
  JObj [ ("id", JStr id);
         ("metadata", JObj [("title", JStr id); ("lastModified", JStr lastModified)]) ].

(** One page of updated series, newest first. *)
Definition updatedPages : list (list JSValue) :=
  [ [ sampleSerie "0F3K1MTCHS2QN" "2024-01-02T00:00:00Z";
      sampleSerie "0F3K1MTCHS2QP" "2023-12-31T00:00:00Z" ] ].

Definition watermark : option Z := Engine.date_parse "2024-01-01T00:00:00Z".

(** A listing of five series followed by the empty page. *)
Definition fiveSeries : list (list JSValue) :=
  [ map (fun id => sampleSerie id "2024-01-02T00:00:00Z") ["s1"; "s2"; "s3"; "s4"; "s5"] ].

(** The tiles of that listing. *)
Definition fiveTiles : list (list PartialSourceManga) :=
  [ map (fun id => createPartialSourceManga (JStr id)
                     (Stored.api ++ "/series/" ++ id ++ "/thumbnail") (JStr id))
        ["s1"; "s2"; "s3"; "s4"; "s5"] ].

(** Actions of this source and of another one. *)
Definition sampleQueue : list TrackedMangaChapterReadAction :=
  [ {| act_mangaId := "0F3K1MTCHS2QN"; sourceId := "Paperback"; sourceChapterId := "0F3K1MTCJ01" |};
    {| act_mangaId := "8821"; sourceId := "MangaDex"; sourceChapterId := "c-17" |};
    {| act_mangaId := "0F3K1MTCHS2QN"; sourceId := "Paperback"; sourceChapterId := "0F3K1MTCJ02" |};
    {| act_mangaId := "0F3K1MTCHS2QN"; sourceId := "Paperback"; sourceChapterId := "0F3K1MTCJ03" |} ].

(** The first write is accepted, the second refused by the server, the
    third never answered. *)
Definition sampleWrites : list (Result Response) :=
  [ Ok (createResponse JNull 204); Ok (createResponse JNull 500);
    Throw (TransportError "timeout") ].

(** The four answers of the tag catalog, with [n] collections. *)
Definition tagAnswers (n : nat) : list (Result Response) :=
  [ Scripted.ok (JArr [JStr "action"; JStr "drama"]);
    Scripted.ok (JArr [JStr "seinen"]);
    Scripted.ok (JObj [("content",
                        JArr (map (fun i => JObj [("id", JStr "0F3K1MTCC01");
                                                  ("name", JStr "favourites")])
                                  (seq 0 n)))]);
    Scripted.ok (JArr [JObj [("id", JStr "0F3K1MTCL01"); ("name", JStr "manga")]]) ].

(** The chapter list of the sample series as the server sends it. *)
Definition fourChaptersAnswer : Response :=
  createResponse (JObj [("content", JArr (map Library.book_json fourChapters))]) 200.

(** The chapter list and the reset are answered, the first write is
    accepted, the second one is never answered. *)
Definition interruptedWrites : list (Result Response) :=
  [ Ok fourChaptersAnswer; Ok (createResponse JNull 204);
    Ok (createResponse JNull 204); Throw (TransportError "timeout") ].

(** Two pages of updated series: the walk ends inside the second one. *)
Definition updatedTwoPages : list (list JSValue) :=
  [ [ sampleSerie "0F3K1MTCHS2QR" "2024-01-03T00:00:00Z" ];
    [ sampleSerie "0F3K1MTCHS2QN" "2024-01-02T00:00:00Z";
      sampleSerie "0F3K1MTCHS2QP" "2023-12-31T00:00:00Z" ] ].

(** A page list with one supported and one unsupported media type. *)
Definition samplePages : Response :=
  createResponse
    (JArr [ JObj [("number", JInt 1); ("mediaType", JStr "image/jpeg")];
            JObj [("number", JInt 2); ("mediaType", JStr "image/avif")] ]) 200.

(** A series as the server describes it: an empty summary of its own, a
    writer who is also the penciller, and a colorist. *)
Definition sampleSerieAnswer : Response :=
  createResponse
    (JObj [ ("id", JStr Library.series);
            ("booksCount", JInt 4);
            ("booksReadCount", JInt 2);
            ("metadata",
             JObj [ ("title", JStr "Blame!"); ("status", JStr "ENDED");
                    ("language", JStr "en"); ("readingDirection", JStr "RIGHT_TO_LEFT");
                    ("summary", JStr EmptyString);
                    ("genres", JArr [JStr "sci-fi"]); ("tags", JArr [JStr "cyberpunk"]) ]);
            ("booksMetadata",
             JObj [ ("summary", JStr "Killy walks the City.");
                    ("authors",
                     JArr [ JObj [("name", JStr "Nihei Tsutomu"); ("role", JStr "writer")];
                            JObj [("name", JStr "Nihei Tsutomu"); ("role", JStr "penciller")];
                            JObj [("name", JStr "Studio"); ("role", JStr "colorist")] ]) ]) ])
    200.


(** A stored server URL without stored credentials. *)
Definition urlOnly : SourceStateManager :=
  {| state := {[ "komgaAPI" := JStr Stored.api ]}; keychain := ∅ |}.


(** * Properties *)

Local Open Scope list_scope.

(** ** Authorization injection *)

Lemma authorization_of_set (r : Request) (h : gmap string JSValue) :
  authorization_of (set_headers r h) = default JUndefined (h !! "authorization").
Proof. reflexivity. Qed.

Lemma interceptRequest_keeps `{Common} (sm : SourceStateManager) (request : Request) :
  is_nullish (authorization_of request) = false ->
  exists r, interceptRequest sm request = Ok r
            /\ authorization_of r = authorization_of request.
Proof.
  intros Hpresent. unfold interceptRequest.
  destruct (headers request) as [h|] eqn:Hh.
  - assert (Hsame : authorization_of (set_headers request h) = authorization_of request).
    { unfold authorization_of at 2. rewrite Hh. reflexivity. }
    rewrite Hsame, Hpresent. eauto.
  - unfold authorization_of in Hpresent. rewrite Hh in Hpresent. discriminate.
Qed.

Lemma interceptRequest_injects `{Common} (sm : SourceStateManager) (request : Request)
    (stored : JSValue) :
  is_nullish (authorization_of request) = true ->
  getAuthorizationString sm = Ok stored ->
  exists r, interceptRequest sm request = Ok r /\ authorization_of r = stored.
Proof.
  intros Habsent Hstored. unfold interceptRequest.
  assert (Hsame : authorization_of
                    (set_headers request
                       match headers request with Some h => h | None => ∅ end)
                  = authorization_of request).
  { unfold authorization_of at 2. destruct (headers request); reflexivity. }
  rewrite Hsame, Habsent, Hstored. simpl. eexists. split; [reflexivity|].
  rewrite authorization_of_set, lookup_insert_eq. reflexivity.
Qed.

Lemma tracker_interceptRequest_forces (sm : SourceStateManager) (request : Request)
    (stored : JSValue) :
  Tracker.getAuthorizationString sm = Ok stored ->
  is_nullish stored = false ->
  exists r, Tracker.interceptRequest sm request = Ok r /\ authorization_of r = stored.
Proof.
  intros Hstored Hnn. unfold Tracker.interceptRequest. rewrite Hstored. simpl.
  rewrite Hnn. eexists. split; [reflexivity|].
  rewrite authorization_of_set.
  erewrite lookup_union_Some_l; [reflexivity|]. apply lookup_singleton_eq.
Qed.

(** C3, as amended: the source plugin's interceptor sets the stored
    authorization on a request that defines none and leaves a defined one as
    it is (whatever is stored); the bundled tracker's interceptor sets the
    stored authorization on every request, also over one the request
    defines. *)
Theorem interceptRequest_authorization `{Common} (sm : SourceStateManager)
    (request : Request) (stored : JSValue) :
  getAuthorizationString sm = Ok stored ->
  Tracker.getAuthorizationString sm = Ok stored ->
  is_nullish stored = false ->
  (exists r, interceptRequest sm request = Ok r
             /\ authorization_of r =
                  if is_nullish (authorization_of request) then stored
                  else authorization_of request)
  /\ (is_nullish (authorization_of request) = false ->
      forall sm', exists r, interceptRequest sm' request = Ok r
                            /\ authorization_of r = authorization_of request)
  /\ (exists r, Tracker.interceptRequest sm request = Ok r
                /\ authorization_of r = stored).
Proof.
  intros Hsrc Htrk Hnn. split; [|split].
  - destruct (is_nullish (authorization_of request)) eqn:Hn.
    + eapply interceptRequest_injects; eassumption.
    + apply interceptRequest_keeps; assumption.
  - intros Hpresent sm'. apply interceptRequest_keeps; assumption.
  - apply tracker_interceptRequest_forces; assumption.
Qed.

Lemma interceptRequest_authorization_witness :
  (exists r, @interceptRequest Stored.common Stored.configured callerAuthorized = Ok r
             /\ authorization_of r = JStr "Basic Y2FsbGVyOnRyaWFs")
  /\ (exists r, Tracker.interceptRequest Stored.configured callerAuthorized = Ok r
                /\ authorization_of r = JStr "Basic c3RvcmVkOnNlY3JldA==").
Proof.
  destruct (@interceptRequest_authorization Stored.common Stored.configured
              callerAuthorized (JStr "Basic c3RvcmVkOnNlY3JldA=="))
    as (Hsource & _ & Htracker); [reflexivity | reflexivity | reflexivity |].
  split; [exact Hsource | exact Htracker].
Defined.

(** C3, as stated, fails for the bundled tracker: a request that already
    carries an authorization header leaves its interceptor with the stored
    one. *)
Lemma tracker_interceptRequest_overwrites :
  is_nullish (authorization_of callerAuthorized) = false
  /\ exists r, Tracker.interceptRequest Stored.configured callerAuthorized = Ok r
               /\ authorization_of r <> authorization_of callerAuthorized.
Proof.
  split; [reflexivity|].
  eexists. split; [reflexivity|]. vm_compute. discriminate.
Qed.


(** ** Response normalization *)

Lemma normalize_structured `{JSEngine} (body : JSValue) :
  typeof_string body = false -> normalize body = Ok body.
Proof. destruct body; simpl; intros Hs; try reflexivity; discriminate. Qed.

(** C8, as amended: for a string body holding valid JSON whose decoded value
    is not itself a string, normalizing the text and normalizing the decoded
    value agree; a body that is not a string is returned unchanged and
    normalization cannot fail on it. *)
Theorem normalize_predecoded `{JSEngine} (body : string) (decoded : JSValue) :
  JSON_parse body = Ok decoded ->
  typeof_string decoded = false ->
  normalize (JStr body) = normalize decoded
  /\ (forall structured, typeof_string structured = false ->
                         normalize structured = Ok structured).
Proof.
  intros Hparse Hns. split.
  - rewrite (normalize_structured decoded Hns). exact Hparse.
  - intros structured. apply normalize_structured.
Qed.

Lemma normalize_predecoded_witness :
  @normalize Engine.engine (JStr "[1, 2]")
  = @normalize Engine.engine (JArr [JNum 1; JNum 2]).
Proof.
  apply (@normalize_predecoded Engine.engine "[1, 2]" (JArr [JNum 1; JNum 2]));
    reflexivity.
Defined.

(** C8, as stated, fails on a JSON text that is a string literal: the text
    ["1"] decodes to the string [1], and normalizing that string parses it
    once more, giving the number 1. *)
Lemma normalize_string_literal_differs :
  @JSON_parse Engine.engine (quoted "1") = Ok (JStr "1")
  /\ @normalize Engine.engine (JStr (quoted "1")) = Ok (JStr "1")
  /\ @normalize Engine.engine (JStr "1") = Ok (JNum 1)
  /\ @normalize Engine.engine (JStr (quoted "1")) <> @normalize Engine.engine (JStr "1").
Proof.
  repeat split; try reflexivity. vm_compute. discriminate.
Qed.

(** ** The plugin monad *)

Section MonadLaws.
Context `{HostApp}.

Lemma bind_lift_Ok {A B} (a : A) (f : A -> M B) (s : PState) :
  bind (lift (Ok a)) f s = f a s.
Proof. reflexivity. Qed.

Lemma bind_lift_Throw {A B} (e : Exn) (f : A -> M B) (s : PState) :
  bind (lift (Throw e)) f s = (Throw e, s).
Proof. reflexivity. Qed.

Lemma bind_ret {A B} (a : A) (f : A -> M B) (s : PState) :
  bind (ret a) f s = f a s.
Proof. reflexivity. Qed.

Lemma bind_emit {B} (e : Event) (f : unit -> M B) (s : PState) :
  bind (emit e) f s = f tt (mkPState (world s) (trace s ++ [e])).
Proof. reflexivity. Qed.

Lemma bind_Ok {A B} (m : M A) (f : A -> M B) (s s' : PState) (a : A) :
  m s = (Ok a, s') -> bind m f s = f a s'.
Proof. intros Hm. unfold bind. rewrite Hm. reflexivity. Qed.

Lemma bind_Throw {A B} (m : M A) (f : A -> M B) (s s' : PState) (e : Exn) :
  m s = (Throw e, s') -> bind m f s = (Throw e, s').
Proof. intros Hm. unfold bind. rewrite Hm. reflexivity. Qed.

Lemma schedule_eq (r : Request) (s : PState) (res : Result Response) (w' : World) :
  host_schedule r (world s) = (res, w') ->
  schedule r s = (res, mkPState w' (trace s ++ [EvSchedule r])).
Proof. intros Hs. unfold schedule. rewrite Hs. reflexivity. Qed.

Lemma schedule_ok (r : Request) (s : PState) :
  neverRejects ->
  exists response w',
    schedule r s = (Ok response, mkPState w' (trace s ++ [EvSchedule r])).
Proof.
  intros Hok. specialize (Hok r (world s)).
  destruct (host_schedule r (world s)) as [[response|e] w'] eqn:Hs; simpl in Hok.
  - exists response, w'. apply schedule_eq. exact Hs.
  - discriminate.
Qed.

Lemma schedule_rejected (r : Request) (s : PState) :
  alwaysRejects ->
  exists e w',
    schedule r s = (Throw e, mkPState w' (trace s ++ [EvSchedule r])).
Proof.
  intros Hko. specialize (Hko r (world s)).
  destruct (host_schedule r (world s)) as [[response|e] w'] eqn:Hs; simpl in Hko.
  - discriminate.
  - exists e, w'. apply schedule_eq. exact Hs.
Qed.
End MonadLaws.

Lemma requests_of_app (tr1 tr2 : list Event) :
  requests_of (tr1 ++ tr2) = requests_of tr1 ++ requests_of tr2.
Proof. apply omap_app. Qed.

Lemma requests_of_schedules (rs : list Request) :
  requests_of (map EvSchedule rs) = rs.
Proof. induction rs as [|r rs IH]; simpl; [reflexivity|]. f_equal. exact IH. Qed.

(** ** Progress reconciliation *)

Lemma get_prop_opt (v x : JSValue) (k k' : string) :
  get_prop v k = Ok x -> get_prop v k' = Ok (opt_prop v k').
Proof.
  destruct v; simpl; intros Hx; try discriminate; try reflexivity.
  - destruct (String.eqb k' "length"); reflexivity.
  - destruct (String.eqb k' "length"); reflexivity.
Qed.

Lemma js_eq_num_JNum `{JSEngine} (p c : Q) :
  (p == c)%Q -> js_eq_num p (JNum c) = true.
Proof. intros Heq. simpl. apply Qeq_bool_iff. exact Heq. Qed.

Section ProgressForm.
Context `{JSEngine} `{HostApp}.

Lemma markBooks_cons (komgaAPI : option string) (progress : Q) (book : JSValue)
    (rest : list JSValue) :
  markBooks komgaAPI progress (book :: rest)
  = bind (lift (get_prop book "metadata")) (fun metadata =>
    bind (lift (get_prop metadata "numberSort")) (fun numberSort =>
    bind (if js_le_num numberSort progress
          then bind (lift (get_prop book "id")) (fun id =>
               bind (schedule (markRead komgaAPI (ToString id))) (fun _ => ret tt))
          else ret tt)
         (fun _ => markBooks komgaAPI progress rest))).
Proof. reflexivity. Qed.

Lemma markBooks_trace (komgaAPI : option string) (progress : Q) (books : list JSValue) :
  neverRejects ->
  Forall (fun book => is_ok (sortKey_of book) = true) books ->
  forall s, exists w',
    markBooks komgaAPI progress books s
    = (Ok tt,
       mkPState w'
         (trace s ++ map EvSchedule
                       (map (fun book => markRead komgaAPI (bookId_of book))
                            (List.filter (upToTarget progress) books)))).
Proof.
  intros Hok Hwf. induction Hwf as [|book rest Hbook _ IH]; intros s.
  - exists (world s). simpl. rewrite app_nil_r. destruct s; reflexivity.
  - rewrite markBooks_cons.
    unfold sortKey_of in Hbook.
    destruct (get_prop book "metadata") as [metadata|] eqn:Hm; [|discriminate].
    rewrite bind_lift_Ok. simpl in Hbook.
    destruct (get_prop metadata "numberSort") as [k|] eqn:Hk; [|discriminate].
    rewrite bind_lift_Ok.
    assert (Hsel : upToTarget progress book = js_le_num k progress).
    { unfold upToTarget, sortKey_of. rewrite Hm. simpl. rewrite Hk. reflexivity. }
    simpl List.filter. rewrite Hsel.
    destruct (js_le_num k progress) eqn:Hle.
    + rewrite (get_prop_opt book metadata "metadata" "id" Hm).
      destruct (schedule_ok (markRead komgaAPI (ToString (opt_prop book "id"))) s Hok)
        as (response & w1 & Hs).
      erewrite bind_Ok; cycle 1.
      { rewrite bind_lift_Ok. erewrite bind_Ok by exact Hs. reflexivity. }
      match goal with |- context [markBooks _ _ _ ?s1] =>
        destruct (IH s1) as (w' & Hrest) end.
      exists w'. rewrite Hrest. simpl. rewrite <- app_assoc. reflexivity.
    + rewrite bind_ret. destruct (IH s) as (w' & Hrest). exists w'. exact Hrest.
Qed.

(** C10: a submission whose progress value is absent, or equal to the read
    count stored when the form was built, hands no request to the request
    manager and leaves the remote state as it was. *)
Theorem onSubmit_unchanged_is_silent (komgaAPI : option string) (mangaId : string)
    (w0 : World) (built : PState) (booksReadCount : JSValue) (shown : FormSections)
    (progress : option Q) (w : World) :
  run (formSections komgaAPI mangaId) w0 = (Ok (booksReadCount, shown), built) ->
  progress = None
  \/ (exists p, progress = Some p /\ js_eq_num p booksReadCount = true) ->
  run (onSubmit komgaAPI mangaId booksReadCount progress) w = (Ok tt, mkPState w []).
Proof.
  intros _ [-> | (p & -> & Heq)]; unfold run, onSubmit.
  - reflexivity.
  - rewrite Heq. reflexivity.
Qed.

(** C1, as amended: once the submitted target is present and differs from
    the stored read count, the chapter list is answered with a [content]
    array and no request is rejected, the handler hands over, in this
    order, the chapter list request, one series-wide reset of the read
    progress, and one "mark read" request for every chapter whose sort key
    is at most the target; no per-chapter request is made for a chapter
    above the target. *)
Theorem onSubmit_marks_up_to_target (komgaAPI : option string) (mangaId : string)
    (booksReadCount : JSValue) (target : Q) (w w1 : World) (response : Response)
    (result : JSValue) (books : list JSValue) :
  js_eq_num target booksReadCount = false ->
  neverRejects ->
  host_schedule (booksRequest komgaAPI mangaId) w = (Ok response, w1) ->
  normalize (resp_data response) = Ok result ->
  opt_prop result "content" = JArr books ->
  Forall (fun book => is_ok (sortKey_of book) = true) books ->
  exists s,
    run (onSubmit komgaAPI mangaId booksReadCount (Some target)) w = (Ok tt, s)
    /\ requests_of (trace s)
       = booksRequest komgaAPI mangaId
         :: deleteReadProgress komgaAPI mangaId
         :: map (fun book => markRead komgaAPI (bookId_of book))
                (List.filter (upToTarget target) books)
    /\ (forall book, In book books -> upToTarget target book = true ->
          In (markRead komgaAPI (bookId_of book)) (requests_of (trace s)))
    /\ (forall r, In r (requests_of (trace s)) ->
          r = booksRequest komgaAPI mangaId
          \/ r = deleteReadProgress komgaAPI mangaId
          \/ exists book, In book books /\ upToTarget target book = true
                          /\ r = markRead komgaAPI (bookId_of book)).
Proof.
  intros Hne Hok Hlist Hnorm Hcontent Hwf.
  unfold run, onSubmit. rewrite Hne.
  fold (booksRequest komgaAPI mangaId).
  erewrite bind_Ok by (apply schedule_eq; exact Hlist).
  rewrite Hnorm, bind_lift_Ok, Hcontent.
  change (is_nullish (JArr books)) with false. cbv iota.
  match goal with |- context [bind (schedule ?r) _ ?s] =>
    destruct (schedule_ok r s Hok) as (resp2 & w2 & Hs2) end.
  erewrite bind_Ok by exact Hs2.
  change (js_iter (JArr books)) with (Ok books). rewrite bind_lift_Ok.
  match goal with |- context [markBooks _ _ _ ?s] =>
    destruct (markBooks_trace komgaAPI target books Hok Hwf s) as (w3 & Hmark) end.
  rewrite Hmark. eexists. split; [reflexivity|].
  cbn [trace world]. rewrite !requests_of_app, requests_of_schedules. simpl.
  split; [reflexivity|]. split.
  - intros book Hin Hsel. right. right. apply in_map_iff. exists book. split; [reflexivity|].
    apply filter_In. auto.
  - intros r [<- | [<- | Hin]]; auto. right. right.
    apply in_map_iff in Hin as (book & <- & Hin). apply filter_In in Hin as [Hin Hsel].
    eauto.
Qed.
End ProgressForm.

Lemma library_neverRejects : @neverRejects Library.host.
Proof.
  intros r w. simpl. unfold Library.serve.
  repeat match goal with
         | |- context [if ?b then _ else _] => destruct b
         end; reflexivity.
Qed.

Lemma onSubmit_unchanged_is_silent_witness :
  @run Library.host _
    (@onSubmit Engine.engine Library.host (Some Stored.api) Library.series (JInt 4) (Some 4%Q))
    fourChapters
  = (Ok tt, @mkPState Library.host fourChapters []).
Proof.
  eapply (@onSubmit_unchanged_is_silent Engine.engine Library.host (Some Stored.api)
            Library.series fourChapters _ (JInt 4) _ (Some 4%Q) fourChapters).
  - vm_compute. reflexivity.
  - right. exists 4%Q. split; reflexivity.
Defined.

Lemma onSubmit_marks_up_to_target_witness :
  exists s,
    @run Library.host _
      (@onSubmit Engine.engine Library.host (Some Stored.api) Library.series (JInt 4) (Some 2%Q))
      fourChapters = (Ok tt, s)
    /\ requests_of (trace s)
       = [ @booksRequest (Some Stored.api) Library.series;
           deleteReadProgress (Some Stored.api) Library.series;
           markRead (Some Stored.api) "0F3K1MTCJ01";
           markRead (Some Stored.api) "0F3K1MTCJ02" ].
Proof.
  destruct (@onSubmit_marks_up_to_target Engine.engine Library.host (Some Stored.api)
              Library.series (JInt 4) 2%Q fourChapters fourChapters
              (createResponse (JObj [("content", JArr (map Library.book_json fourChapters))]) 200)
              (JObj [("content", JArr (map Library.book_json fourChapters))])
              (map Library.book_json fourChapters))
    as (s & Hrun & Hreq & _).
  - reflexivity.
  - exact library_neverRejects.
  - reflexivity.
  - reflexivity.
  - reflexivity.
  - repeat constructor.
  - exists s. split; [exact Hrun | exact Hreq].
Defined.

(** C1, as stated, fails: with four read chapters and target 2 the handler
    issues the series-wide reset, and the chapter with sort key 3, which was
    read, is unread afterwards. *)
Lemma onSubmit_resets_chapters_above_target :
  let r := @run Library.host _
             (@onSubmit Engine.engine Library.host (Some Stored.api) Library.series
                (JInt 4) (Some 2%Q)) fourChapters in
  fst r = Ok tt
  /\ @upToTarget Engine.engine 2
       (Library.book_json {| Library.book_id := "0F3K1MTCJ03"; Library.numberSort := 3;
                             Library.completed := true |}) = false
  /\ In (deleteReadProgress (Some Stored.api) Library.series) (requests_of (trace (snd r)))
  /\ Library.read_state fourChapters "0F3K1MTCJ03" = Some true
  /\ Library.read_state (world (snd r)) "0F3K1MTCJ03" = Some false.
Proof.
  vm_compute. repeat split. right. left. reflexivity.
Qed.

(** ** The chapter-read action queue *)

Lemma dispositions_of_app (tr1 tr2 : list Event) :
  dispositions_of (tr1 ++ tr2) = dispositions_of tr1 ++ dispositions_of tr2.
Proof. apply omap_app. Qed.

Section ActionQueue.
Context `{JSEngine} `{HostApp} `{Common}.

(** What one action adds to the trace, given the outcome of its write. *)
Lemma processAction_step (komgaAPI : option string) (a : TrackedMangaChapterReadAction)
    (s : PState) :
  (fromPaperback a = false
   /\ processAction komgaAPI a s
      = (Ok tt, mkPState (world s) (trace s ++ [EvDiscard a])))
  \/ (fromPaperback a = true
      /\ exists res w',
           host_schedule (markRead komgaAPI (sourceChapterId a)) (world s) = (res, w')
           /\ processAction komgaAPI a s
              = (Ok tt,
                 mkPState w'
                   (trace s ++ [EvSchedule (markRead komgaAPI (sourceChapterId a));
                                if succeeded res then EvDiscard a else EvRetry a]))).
Proof.
  unfold processAction, fromPaperback.
  destruct (String.eqb (sourceId a) "Paperback"); cbn [negb].
  - right. split; [reflexivity|].
    destruct (host_schedule (markRead komgaAPI (sourceChapterId a)) (world s))
      as [res w'] eqn:Hs.
    exists res, w'. split; [reflexivity|].
    unfold try_catch. cbv beta.
    destruct res as [response|e].
    + erewrite bind_Ok by (apply schedule_eq; exact Hs). simpl succeeded.
      destruct (status response <? 400); unfold emit; simpl;
        rewrite <- app_assoc; reflexivity.
    + erewrite bind_Throw by (apply schedule_eq; exact Hs).
      unfold emit; simpl. rewrite <- app_assoc. reflexivity.
  - left. split; reflexivity.
Qed.

Lemma processActions_trace (komgaAPI : option string)
    (queue : list TrackedMangaChapterReadAction) :
  forall s, exists s' tr outcomes,
    processActions komgaAPI queue s = (Ok tt, s')
    /\ trace s' = trace s ++ tr
    /\ requests_of tr
       = map (fun a => markRead komgaAPI (sourceChapterId a))
             (List.filter fromPaperback queue)
    /\ answers (world s) (requests_of tr) outcomes (world s')
    /\ dispositions_of tr = expected_dispositions queue outcomes
    /\ map fst (dispositions_of tr) = queue.
Proof.
  induction queue as [|a rest IH]; intros s.
  - exists s, [], []. rewrite app_nil_r. repeat split. constructor.
  - change (processActions komgaAPI (a :: rest) s)
      with (bind (processAction komgaAPI a) (fun _ => processActions komgaAPI rest) s).
    destruct (processAction_step komgaAPI a s)
      as [[Hp Hstep] | (Hp & res & w' & Hs & Hstep)];
      erewrite bind_Ok by exact Hstep;
      match goal with |- context [processActions _ _ ?s1] =>
        destruct (IH s1) as (s' & tr & outcomes & Hrun & Htr & Hreq & Hans & Hdisp & Hfst)
      end;
      cbn [trace world] in Htr, Hans; rewrite <- app_assoc in Htr.
    + exists s', ([EvDiscard a] ++ tr), outcomes.
      rewrite requests_of_app, dispositions_of_app. simpl. rewrite Hp.
      repeat split; try assumption.
      * rewrite Hdisp. reflexivity.
      * rewrite Hfst. reflexivity.
    + exists s', ([EvSchedule (markRead komgaAPI (sourceChapterId a));
                   if succeeded res then EvDiscard a else EvRetry a] ++ tr),
             (res :: outcomes).
      rewrite requests_of_app, dispositions_of_app. simpl List.filter. rewrite Hp.
      assert (Hr : requests_of [EvSchedule (markRead komgaAPI (sourceChapterId a));
                                if succeeded res then EvDiscard a else EvRetry a]
                   = [markRead komgaAPI (sourceChapterId a)]).
      { destruct (succeeded res); reflexivity. }
      assert (Hd : dispositions_of [EvSchedule (markRead komgaAPI (sourceChapterId a));
                                    if succeeded res then EvDiscard a else EvRetry a]
                   = [(a, if succeeded res then Discarded else Retried)]).
      { destruct (succeeded res); reflexivity. }
      rewrite Hr, Hd. simpl. rewrite Hp.
      repeat split; try assumption.
      * rewrite Hreq. reflexivity.
      * econstructor; eassumption.
      * rewrite Hdisp. reflexivity.
      * rewrite Hfst. reflexivity.
Qed.

(** C9: every queued action gets exactly one disposition, in queue order.
    An action that does not come from this source is discarded and no
    request is made for it; for an action of this source exactly one write
    is scheduled, and the action is discarded when the write resolves with
    a status below 400 and marked for retry when it resolves with another
    status or is rejected. *)
Theorem processChapterReadActionQueue_dispositions (stateManager : SourceStateManager)
    (komgaAPI : option string) (queue : list TrackedMangaChapterReadAction) (w : World) :
  getKomgaAPI stateManager = Ok komgaAPI ->
  exists s outcomes,
    run (processChapterReadActionQueue stateManager queue) w = (Ok tt, s)
    /\ map fst (dispositions_of (trace s)) = queue
    /\ requests_of (trace s)
       = map (fun a => markRead komgaAPI (sourceChapterId a))
             (List.filter fromPaperback queue)
    /\ answers w (requests_of (trace s)) outcomes (world s)
    /\ dispositions_of (trace s) = expected_dispositions queue outcomes.
Proof.
  intros Hapi. unfold run, processChapterReadActionQueue.
  rewrite Hapi, bind_lift_Ok.
  destruct (processActions_trace komgaAPI queue (mkPState w []))
    as (s' & tr & outcomes & Hrun & Htr & Hreq & Hans & Hdisp & Hfst).
  simpl in Htr, Hans. exists s', outcomes. rewrite Hrun, Htr. auto.
Qed.
End ActionQueue.

(** ** Paging *)

Section Paging.
Context `{JSEngine} `{HostApp} `{Common}.

Lemma getViewMoreItems_step (stateManager : SourceStateManager) (homepageSectionId : string)
    (metadata : option Z) (komgaAPI : option string) (s : PState) (data : Response)
    (w' : World) (tiles : list PartialSourceManga) :
  getKomgaAPI stateManager = Ok komgaAPI ->
  host_schedule (viewMoreRequest komgaAPI homepageSectionId (default 0 metadata)) (world s)
  = (Ok data, w') ->
  tiles_of (api_str komgaAPI ++ "/series")%string "id" data = Ok tiles ->
  getViewMoreItems stateManager homepageSectionId metadata s
  = (Ok (createPagedResults tiles
           (if (length tiles =? 0)%nat then None else Some (default 0 metadata + 1))),
     mkPState w'
       (trace s ++ [EvSchedule (viewMoreRequest komgaAPI homepageSectionId
                                  (default 0 metadata))])).
Proof.
  intros Hapi Hs Htiles. unfold getViewMoreItems.
  rewrite Hapi, bind_lift_Ok.
  fold (viewMoreRequest komgaAPI homepageSectionId (default 0 metadata)).
  erewrite bind_Ok by (apply schedule_eq; exact Hs).
  rewrite Htiles, bind_lift_Ok. reflexivity.
Qed.

Lemma viewMoreWalk_trace (stateManager : SourceStateManager) (homepageSectionId : string)
    (komgaAPI : option string) (todo : list (list PartialSourceManga)) :
  getKomgaAPI stateManager = Ok komgaAPI ->
  Forall (fun p => p <> []) todo ->
  forall (done : list (list PartialSourceManga)) (fuel : nat) (metadata : option Z)
         (s : PState),
    servesPages komgaAPI homepageSectionId (done ++ todo) ->
    default 0 metadata = Z.of_nat (length done) ->
    (length todo < fuel)%nat ->
    exists w',
      viewMoreWalk fuel stateManager homepageSectionId metadata s
      = (Ok (concat todo, true),
         mkPState w'
           (trace s ++ map EvSchedule
                         (map (fun i => viewMoreRequest komgaAPI homepageSectionId (Z.of_nat i))
                              (seq (length done) (S (length todo)))))).
Proof.
  intros Hapi Hne. induction Hne as [|p todo Hp _ IH];
    intros done fuel metadata s Hserve Hpage Hfuel;
    (destruct fuel as [|fuel]; [inversion Hfuel|]);
    destruct (Hserve (length done) (world s)) as (data & w1 & Hs & Htiles);
    try (rewrite length_app; simpl; lia);
    rewrite <- Hpage in Hs;
    cbn [viewMoreWalk].
  - rewrite app_nil_r in Htiles. rewrite nth_overflow in Htiles by lia.
    erewrite bind_Ok by (eapply getViewMoreItems_step; eassumption).
    rewrite Hpage. exists w1. reflexivity.
  - rewrite app_nth2, Nat.sub_diag in Htiles by lia. simpl nth in Htiles.
    erewrite bind_Ok by (eapply getViewMoreItems_step; eassumption).
    rewrite Hpage. cbn [pr_metadata pr_results].
    destruct p as [|t p]; [congruence|].
    change (length (t :: p) =? 0)%nat with false. cbv iota.
    destruct (IH (done ++ [t :: p]) fuel (Some (Z.of_nat (length done) + 1))
                (mkPState w1 (trace s ++ [EvSchedule (viewMoreRequest komgaAPI
                                                         homepageSectionId
                                                         (Z.of_nat (length done)))])))
      as (w' & Hrest).
    + rewrite <- app_assoc. exact Hserve.
    + rewrite length_app. simpl. lia.
    + simpl in Hfuel. lia.
    + erewrite bind_Ok by exact Hrest. exists w'.
      unfold ret. cbn [fst snd trace]. rewrite <- app_assoc.
      rewrite length_app. simpl length. rewrite Nat.add_1_r. reflexivity.
Qed.

(** C6: one call of [getViewMoreItems] schedules exactly one list request,
    for the cursor's page, returns the decoded items, and returns the cursor
    of the next page when there is at least one item and no cursor when
    there is none; so a walk over a listing that ends in an empty page
    requests each page once, the empty page last, and nothing after it. *)
Theorem getViewMoreItems_paging (stateManager : SourceStateManager)
    (homepageSectionId : string) (komgaAPI : option string) :
  getKomgaAPI stateManager = Ok komgaAPI ->
  (forall (metadata : option Z) (w w' : World) (data : Response)
          (tiles : list PartialSourceManga),
      host_schedule (viewMoreRequest komgaAPI homepageSectionId (default 0 metadata)) w
      = (Ok data, w') ->
      tiles_of (api_str komgaAPI ++ "/series")%string "id" data = Ok tiles ->
      run (getViewMoreItems stateManager homepageSectionId metadata) w
      = (Ok (createPagedResults tiles
               (if (length tiles =? 0)%nat then None else Some (default 0 metadata + 1))),
         mkPState w' [EvSchedule (viewMoreRequest komgaAPI homepageSectionId
                                    (default 0 metadata))]))
  /\ (forall (pages : list (list PartialSourceManga)) (fuel : nat) (w : World),
        Forall (fun p => p <> []) pages ->
        servesPages komgaAPI homepageSectionId pages ->
        (length pages < fuel)%nat ->
        exists s,
          run (viewMoreWalk fuel stateManager homepageSectionId None) w
          = (Ok (concat pages, true), s)
          /\ requests_of (trace s)
             = map (fun i => viewMoreRequest komgaAPI homepageSectionId (Z.of_nat i))
                   (seq 0 (S (length pages)))).
Proof.
  intros Hapi. split.
  - intros metadata w w' data tiles Hs Htiles. unfold run.
    erewrite getViewMoreItems_step by eassumption. reflexivity.
  - intros pages fuel w Hne Hserve Hfuel.
    destruct (viewMoreWalk_trace stateManager homepageSectionId komgaAPI pages Hapi Hne
                [] fuel None (mkPState w []) Hserve eq_refl Hfuel) as (w' & Hwalk).
    unfold run. rewrite Hwalk. eexists. split; [reflexivity|].
    cbn [trace]. rewrite app_nil_l. apply requests_of_schedules.
Qed.
End Paging.

(** ** The tag catalog *)

Lemma rbind_Ok_inv {A B} (r : Result A) (f : A -> Result B) (b : B) :
  rbind r f = Ok b -> exists a, r = Ok a /\ f a = Ok b.
Proof. destruct r as [a|e]; simpl; intros Hb; [eauto | discriminate]. Qed.

Lemma rmap_length {A B} (f : A -> Result B) (l : list A) (l' : list B) :
  rmap f l = Ok l' -> length l' = length l.
Proof.
  revert l'. induction l as [|x l IH]; simpl; intros l' Hl.
  - injection Hl as <-. reflexivity.
  - apply rbind_Ok_inv in Hl as (y & _ & Hl).
    apply rbind_Ok_inv in Hl as (ys & Hys & Hl).
    injection Hl as <-. simpl. f_equal. apply IH. exact Hys.
Qed.

Lemma js_le_num_length `{JSEngine} (n : nat) :
  js_le_num (JInt (Z.of_nat n)) 1 = (n <=? 1)%nat.
Proof.
  unfold js_le_num, JInt, ToNumber, Qle_bool. simpl.
  rewrite Z.mul_1_r.
  destruct (Nat.leb_spec n 1); [apply Z.leb_le | apply Z.leb_gt]; lia.
Qed.

Section TagCatalog.
Context `{JSEngine} `{HostApp} `{Common}.

(** When the four requests resolve, [getTags] is the decoding of their
    responses. *)
Lemma getTags_fetched (stateManager : SourceStateManager) (komgaAPI : option string)
    (w w1 w2 w3 w4 : World) (genres tags collection library : Response) :
  getKomgaAPI stateManager = Ok komgaAPI ->
  host_schedule (GET (api_str komgaAPI ++ "/genres")%string None) w = (Ok genres, w1) ->
  host_schedule (GET (api_str komgaAPI ++ "/tags/series")%string None) w1 = (Ok tags, w2) ->
  host_schedule (GET (api_str komgaAPI ++ "/collections")%string None) w2 = (Ok collection, w3) ->
  host_schedule (GET (api_str komgaAPI ++ "/libraries")%string None) w3 = (Ok library, w4) ->
  fst (run (getTags stateManager) w) = tagSections_of genres tags collection library.
Proof.
  intros Hapi Hg Ht Hc Hl. unfold run, getTags.
  erewrite bind_Ok; cycle 1.
  { unfold try_catch. rewrite Hapi, bind_lift_Ok.
    erewrite bind_Ok by (apply schedule_eq; exact Hg).
    erewrite bind_Ok by (apply schedule_eq; exact Ht).
    erewrite bind_Ok by (apply schedule_eq; exact Hc).
    erewrite bind_Ok by (apply schedule_eq; exact Hl).
    reflexivity. }
  reflexivity.
Qed.

Lemma tagSections_of_collections (genres tags collection library : Response)
    (collectionResult : JSValue) (collections : list JSValue) (sections : list TagSection) :
  tagSections_of genres tags collection library = Ok sections ->
  normalize (resp_data collection) = Ok collectionResult ->
  get_prop collectionResult "content" = Ok (JArr collections) ->
  exists gs ts cs ls,
    rmap (named_tag "collection-") collections = Ok cs
    /\ sections
       = if (length collections <=? 1)%nat
         then [ createTagSection "0" "genres" gs; createTagSection "1" "tags" ts;
                createTagSection "3" "libraries" ls ]
         else [ createTagSection "0" "genres" gs; createTagSection "1" "tags" ts;
                createTagSection "2" "collections" cs;
                createTagSection "3" "libraries" ls ].
Proof.
  intros Hsec Hnorm Hcontent. unfold tagSections_of in Hsec.
  apply rbind_Ok_inv in Hsec as (genresResult & _ & Hsec).
  apply rbind_Ok_inv in Hsec as (tagsResult & _ & Hsec).
  rewrite Hnorm in Hsec. simpl rbind in Hsec.
  apply rbind_Ok_inv in Hsec as (libraryResult & _ & Hsec).
  apply rbind_Ok_inv in Hsec as (gs & _ & Hsec).
  apply rbind_Ok_inv in Hsec as (ts & _ & Hsec).
  rewrite Hcontent in Hsec. simpl rbind in Hsec.
  apply rbind_Ok_inv in Hsec as (cs & Hcs & Hsec).
  apply rbind_Ok_inv in Hsec as (ls & _ & Hsec).
  change (get_prop (JArr collections) "length")
    with (Ok (JInt (Z.of_nat (length collections)))) in Hsec.
  simpl rbind in Hsec. rewrite js_le_num_length in Hsec.
  exists gs, ts, cs, ls. split; [exact Hcs|].
  injection Hsec as <-. destruct (length collections <=? 1)%nat; reflexivity.
Qed.

(** C7: when the four requests of the tag catalog resolve and their
    responses decode, the result has no collections section if the server
    reports at most one collection, and has it, with one tag per
    collection, if the server reports two or more. *)
Theorem getTags_collections_section (stateManager : SourceStateManager)
    (komgaAPI : option string) (w w1 w2 w3 w4 : World)
    (genres tags collection library : Response)
    (collectionResult : JSValue) (collections : list JSValue)
    (sections : list TagSection) :
  getKomgaAPI stateManager = Ok komgaAPI ->
  host_schedule (GET (api_str komgaAPI ++ "/genres")%string None) w = (Ok genres, w1) ->
  host_schedule (GET (api_str komgaAPI ++ "/tags/series")%string None) w1 = (Ok tags, w2) ->
  host_schedule (GET (api_str komgaAPI ++ "/collections")%string None) w2 = (Ok collection, w3) ->
  host_schedule (GET (api_str komgaAPI ++ "/libraries")%string None) w3 = (Ok library, w4) ->
  normalize (resp_data collection) = Ok collectionResult ->
  get_prop collectionResult "content" = Ok (JArr collections) ->
  fst (run (getTags stateManager) w) = Ok sections ->
  ((length collections <= 1)%nat ->
     length sections = 3%nat
     /\ Forall (fun section => ts_label section <> "collections"
                               /\ ts_id section <> "2") sections)
  /\ ((2 <= length collections)%nat ->
        length sections = 4%nat
        /\ exists cs,
             rmap (named_tag "collection-") collections = Ok cs
             /\ length cs = length collections
             /\ sections !! 2%nat = Some (createTagSection "2" "collections" cs)).
Proof.
  intros Hapi Hg Ht Hc Hl Hnorm Hcontent Hrun.
  rewrite (getTags_fetched stateManager komgaAPI w w1 w2 w3 w4
             genres tags collection library Hapi Hg Ht Hc Hl) in Hrun.
  destruct (tagSections_of_collections _ _ _ _ _ _ _ Hrun Hnorm Hcontent)
    as (gs & ts & cs & ls & Hcs & ->).
  split; intros Hn.
  - destruct (Nat.leb_spec (length collections) 1); [|lia].
    split; [reflexivity|]. repeat constructor; simpl; discriminate.
  - destruct (Nat.leb_spec (length collections) 1); [lia|].
    split; [reflexivity|]. exists cs. split; [exact Hcs|].
    split; [eapply rmap_length; exact Hcs | reflexivity].
Qed.
End TagCatalog.


(** ** The update walk *)

Section UpdateWalk.
Context `{JSEngine} `{HostApp} `{Common}.

Lemma updates_of_app (tr1 tr2 : list Event) :
  updates_of (tr1 ++ tr2) = updates_of tr1 ++ updates_of tr2.
Proof. apply omap_app. Qed.

(** Whatever [scanPage] adds to [foundIds] passed the watermark test. *)
Lemma scanPage_notBefore (time : JSDate) (ids : list string) (series : list JSValue) :
  forall (foundIds found' : list JSValue) (more : bool),
    Forall (notBefore time) foundIds ->
    scanPage time ids series foundIds = Ok (found', more) ->
    Forall (notBefore time) found'.
Proof.
  induction series as [|serie rest IH]; intros foundIds found' more Hinv Hscan.
  - simpl in Hscan. injection Hscan as <- _. exact Hinv.
  - simpl in Hscan.
    apply rbind_Ok_inv in Hscan as (metadata & Hm & Hscan).
    apply rbind_Ok_inv in Hscan as (lastModified & Hl & Hscan).
    destruct (date_ge (new_Date lastModified) time) eqn:Hge.
    + destruct (includes ids serie).
      * eapply IH; [|exact Hscan]. apply Forall_app. split; [exact Hinv|].
        constructor; [|constructor].
        exists (new_Date lastModified). split; [|exact Hge].
        unfold serieUpdated. rewrite Hm. simpl. rewrite Hl. reflexivity.
      * eapply IH; eassumption.
    + injection Hscan as <- _. exact Hinv.
Qed.

Lemma updatedLoop_step (fuel : nat) (komgaAPI : option string) (time : JSDate)
    (ids : list string) (page : Z) (foundIds : list JSValue) :
  updatedLoop (S fuel) komgaAPI time ids page foundIds
  = bind (schedule (GET (api_str komgaAPI ++ "/series/updated")%string (Some (pageParam page))))
      (fun data =>
    bind (lift (normalize (resp_data data))) (fun result =>
    bind (lift (get_prop result "content")) (fun content =>
    bind (lift (js_iter content)) (fun series =>
    bind (lift (scanPage time ids series foundIds)) (fun scanned =>
    bind (if (0 <? length (fst scanned))%nat
          then emit (EvMangaUpdates (fst scanned)) else ret tt) (fun _ =>
    if (if (length series =? 0)%nat then false else snd scanned)
    then updatedLoop fuel komgaAPI time ids (page + 1) (fst scanned)
    else ret Finished)))))).
Proof. reflexivity. Qed.

Lemma updatedLoop_notBefore (fuel : nat) (komgaAPI : option string) (time : JSDate)
    (ids : list string) :
  forall (page : Z) (foundIds : list JSValue) (s : PState),
    Forall (notBefore time) foundIds ->
    Forall (Forall (notBefore time)) (updates_of (trace s)) ->
    Forall (Forall (notBefore time))
      (updates_of (trace (snd (updatedLoop fuel komgaAPI time ids page foundIds s)))).
Proof.
  induction fuel as [|fuel IH]; intros page foundIds s Hfound Htrace.
  - exact Htrace.
  - rewrite updatedLoop_step.
    set (request := GET (api_str komgaAPI ++ "/series/updated")%string (Some (pageParam page))).
    destruct (host_schedule request (world s)) as [res w1] eqn:Hs.
    assert (Htrace1 : Forall (Forall (notBefore time))
                        (updates_of (trace s ++ [EvSchedule request]))).
    { rewrite updates_of_app. simpl. rewrite app_nil_r. exact Htrace. }
    destruct res as [data|e];
      [erewrite bind_Ok by (apply schedule_eq; exact Hs)
      |erewrite bind_Throw by (apply schedule_eq; exact Hs); exact Htrace1].
    destruct (normalize (resp_data data)) as [result|e];
      [rewrite bind_lift_Ok | exact Htrace1].
    destruct (get_prop result "content") as [content|e];
      [rewrite bind_lift_Ok | exact Htrace1].
    destruct (js_iter content) as [series|e];
      [rewrite bind_lift_Ok | exact Htrace1].
    destruct (scanPage time ids series foundIds) as [[found' more]|e] eqn:Hscan;
      [rewrite bind_lift_Ok | exact Htrace1].
    pose proof (scanPage_notBefore time ids series foundIds found' more Hfound Hscan)
      as Hfound'.
    cbn [fst snd].
    destruct (0 <? length found')%nat;
      [rewrite bind_emit | rewrite bind_ret];
      (destruct (if (length series =? 0)%nat then false else more);
       [apply IH; [exact Hfound'|] | cbn [ret snd trace]]);
      cbn [trace]; try exact Htrace1;
      rewrite updates_of_app; apply Forall_app; split; try exact Htrace1;
      repeat constructor; exact Hfound'.
Qed.

(** C5: whatever the pages and the watermark, every list handed to the
    update callback contains only series whose last-modified time is at or
    after the watermark; this holds of every run, also of one that is cut
    short by a rejected request or by the page bound. *)
Theorem filterUpdatedManga_notBefore (fuel : nat) (stateManager : SourceStateManager)
    (time : JSDate) (ids : list string) (w : World) :
  Forall (Forall (notBefore time))
    (updates_of (trace (snd (run (filterUpdatedManga fuel stateManager time ids) w)))).
Proof.
  unfold run, filterUpdatedManga.
  destruct (getKomgaAPI stateManager) as [komgaAPI|e].
  - rewrite bind_lift_Ok. apply updatedLoop_notBefore; constructor.
  - rewrite bind_lift_Throw. constructor.
Qed.

(** A value that [ids] includes is a string, and a string has no
    [metadata.lastModified]: the walk never gets to add it. *)
Lemma scanPage_adds_nothing (time : JSDate) (ids : list string) (series : list JSValue) :
  forall (foundIds found' : list JSValue) (more : bool),
    scanPage time ids series foundIds = Ok (found', more) -> found' = foundIds.
Proof.
  induction series as [|serie rest IH]; intros foundIds found' more Hscan.
  - simpl in Hscan. injection Hscan as <- _. reflexivity.
  - simpl in Hscan.
    apply rbind_Ok_inv in Hscan as (metadata & Hm & Hscan).
    apply rbind_Ok_inv in Hscan as (lastModified & Hl & Hscan).
    destruct (date_ge (new_Date lastModified) time).
    + destruct (includes ids serie) eqn:Hin.
      * destruct serie; simpl in Hin; try discriminate.
        simpl in Hm. destruct (String.eqb "metadata" "length"); injection Hm as <-;
          discriminate.
      * eapply IH; eassumption.
    + injection Hscan as <- _. reflexivity.
Qed.
End UpdateWalk.

Section UpdateWalkReports.
Context `{JSEngine} `{HostApp} `{Common}.

(** Starting from an empty [foundIds], the callback is never invoked. *)
Lemma updatedLoop_never_reports (fuel : nat) (komgaAPI : option string) (time : JSDate)
    (ids : list string) :
  forall (page : Z) (s : PState),
    updates_of (trace (snd (updatedLoop fuel komgaAPI time ids page [] s)))
    = updates_of (trace s).
Proof.
  induction fuel as [|fuel IH]; intros page s.
  - reflexivity.
  - rewrite updatedLoop_step.
    set (request := GET (api_str komgaAPI ++ "/series/updated")%string (Some (pageParam page))).
    destruct (host_schedule request (world s)) as [res w1] eqn:Hs.
    assert (Htrace1 : updates_of (trace s ++ [EvSchedule request]) = updates_of (trace s)).
    { rewrite updates_of_app. simpl. apply app_nil_r. }
    destruct res as [data|e];
      [erewrite bind_Ok by (apply schedule_eq; exact Hs)
      |erewrite bind_Throw by (apply schedule_eq; exact Hs); exact Htrace1].
    destruct (normalize (resp_data data)) as [result|e];
      [rewrite bind_lift_Ok | exact Htrace1].
    destruct (get_prop result "content") as [content|e];
      [rewrite bind_lift_Ok | exact Htrace1].
    destruct (js_iter content) as [series|e];
      [rewrite bind_lift_Ok | exact Htrace1].
    destruct (scanPage time ids series []) as [[found' more]|e] eqn:Hscan;
      [rewrite bind_lift_Ok | exact Htrace1].
    apply scanPage_adds_nothing in Hscan as ->. cbn [fst snd length Nat.ltb Nat.leb].
    rewrite bind_ret.
    destruct (if (length series =? 0)%nat then false else more).
    + rewrite IH. exact Htrace1.
    + exact Htrace1.
Qed.

Lemma filterUpdatedManga_never_reports (fuel : nat) (stateManager : SourceStateManager)
    (time : JSDate) (ids : list string) (w : World) :
  updates_of (trace (snd (run (filterUpdatedManga fuel stateManager time ids) w))) = [].
Proof.
  unfold run, filterUpdatedManga.
  destruct (getKomgaAPI stateManager) as [komgaAPI|e].
  - rewrite bind_lift_Ok. apply updatedLoop_never_reports.
  - reflexivity.
Qed.
End UpdateWalkReports.

(** C4 at a concrete listing: the first series was modified after the
    watermark and its identifier is among the candidates, the second one is
    older and ends the walk after one request; the callback is never
    invoked, so the first identifier is not reported. *)
Theorem filterUpdatedManga_reports_nothing :
  let host := @PageServer.host Engine.engine updatedPages in
  let ids := ["0F3K1MTCHS2QN"; "0F3K1MTCHS2QP"]%string in
  let r := @run host _
             (@filterUpdatedManga Engine.engine host Stored.common 8 Stored.configured
                watermark ids) tt in
  @notBefore Engine.engine watermark (sampleSerie "0F3K1MTCHS2QN" "2024-01-02T00:00:00Z")
  /\ In "0F3K1MTCHS2QN"%string ids
  /\ fst r = Ok Finished
  /\ requests_of (trace (snd r))
     = [ @GET (Stored.api ++ "/series/updated")%string
              (Some "?page=0&size=40&deleted=false"%string) ]
  /\ updates_of (trace (snd r)) = [].
Proof.
  cbv zeta. split; [|split; [|split; [|split]]].
  - eexists. split; vm_compute; reflexivity.
  - left. reflexivity.
  - vm_compute. reflexivity.
  - vm_compute. reflexivity.
  - vm_compute. reflexivity.
Qed.

(** ** Resiliency of the tag catalog and the home page *)

Section Resiliency.
Context `{JSEngine} `{HostApp} `{Common}.

Lemma sections_of_app (tr1 tr2 : list Event) :
  sections_of (tr1 ++ tr2) = sections_of tr1 ++ sections_of tr2.
Proof. apply omap_app. Qed.

(** Without a stored server the home page is the single placeholder
    section, and no request is made. *)
Lemma getHomePageSections_unset (stateManager : SourceStateManager) (options : Options)
    (w : World) :
  getKomgaAPI stateManager = Ok None ->
  getOptions stateManager = Ok options ->
  run (getHomePageSections stateManager) w
  = (Ok tt, mkPState w [EvSectionCallback unsetSection]).
Proof.
  intros Hapi Hopt. unfold run, getHomePageSections.
  rewrite Hapi, bind_lift_Ok, Hopt, bind_lift_Ok. reflexivity.
Qed.

(** A rejected request, or a failing configuration read, turns the tag
    catalog into the placeholder list. *)
Lemma getTags_unreachable (stateManager : SourceStateManager) (w : World) :
  alwaysRejects ->
  fst (run (getTags stateManager) w) = Ok serverUnavailableTags.
Proof.
  intros Hko. unfold run, getTags.
  assert (Hcaught : exists s',
            try_catch
              (bind (lift (getKomgaAPI stateManager)) (fun komgaAPI =>
               bind (schedule (GET (api_str komgaAPI ++ "/genres")%string None))
                 (fun genresResponse =>
               bind (schedule (GET (api_str komgaAPI ++ "/tags/series")%string None))
                 (fun tagsResponse =>
               bind (schedule (GET (api_str komgaAPI ++ "/collections")%string None))
                 (fun collectionResponse =>
               bind (schedule (GET (api_str komgaAPI ++ "/libraries")%string None))
                 (fun libraryResponse =>
               ret (Some (genresResponse, tagsResponse, collectionResponse,
                          libraryResponse))))))))
              (fun _ => ret None) (mkPState w [])
            = (Ok None, s')).
  { unfold try_catch.
    destruct (getKomgaAPI stateManager) as [komgaAPI|e].
    - rewrite bind_lift_Ok.
      match goal with |- context [bind (schedule ?r) _ ?s] =>
        destruct (schedule_rejected r s Hko) as (e & w' & Hs) end.
      erewrite bind_Throw by exact Hs. eexists. reflexivity.
    - rewrite bind_lift_Throw. eexists. reflexivity. }
  destruct Hcaught as (s' & Hcaught).
  erewrite bind_Ok by exact Hcaught. reflexivity.
Qed.

Lemma issueSections_rejected (komgaAPI : string) (sections : list HomeSection) :
  alwaysRejects ->
  forall s, exists pending s',
    issueSections komgaAPI sections s = (Ok pending, s')
    /\ length pending = length sections
    /\ Forall (fun p => is_ok (snd p) = false) pending
    /\ sections_of (trace s') = sections_of (trace s) ++ sections.
Proof.
  intros Hko. induction sections as [|section rest IH]; intros s.
  - exists [], s. rewrite app_nil_r. repeat split. constructor.
  - cbn [issueSections]. rewrite bind_emit.
    destruct (sectionRequest komgaAPI section) as [[request thumbPath] idProp].
    pose proof (Hko request (world s)) as Hrej.
    destruct (host_schedule request (world s)) as [res w'] eqn:Hs. simpl in Hrej.
    erewrite bind_Ok; cycle 1.
    { unfold schedule_promise. cbn [world trace]. rewrite Hs. reflexivity. }
    match goal with |- context [bind (issueSections _ _) _ ?s1] =>
      destruct (IH s1) as (pending & s' & Hrun & Hlen & Hall & Htr) end.
    erewrite bind_Ok by exact Hrun.
    exists ((section, thumbPath, idProp, res) :: pending), s'.
    split; [reflexivity|]. split; [simpl; congruence|]. split.
    + constructor; [exact Hrej | exact Hall].
    + rewrite Htr. cbn [trace]. rewrite !sections_of_app. simpl.
      rewrite app_nil_r, <- app_assoc. reflexivity.
Qed.

Lemma settleSections_rejected
    (pending : list (HomeSection * string * string * Result Response)) :
  Forall (fun p => is_ok (snd p) = false) pending ->
  forall (rejected : option Exn) (s : PState),
    pending <> [] \/ rejected <> None ->
    exists e, settleSections pending rejected s = (Throw e, s).
Proof.
  induction 1 as [|[[[section thumbPath] idProp] p] pending Hp _ IH];
    intros rejected s Hsome.
  - destruct Hsome as [Hne | Hne]; [congruence|].
    destruct rejected as [e|]; [|congruence]. exists e. reflexivity.
  - simpl in Hp. destruct p as [data|e]; [discriminate|].
    cbn [settleSections]. apply IH. right. discriminate.
Qed.

(** With a stored server whose requests are all rejected, the home page
    hands over its empty sections and then fails. *)
Lemma getHomePageSections_unreachable (stateManager : SourceStateManager)
    (komgaAPI : string) (options : Options) (w : World) :
  getKomgaAPI stateManager = Ok (Some komgaAPI) ->
  getOptions stateManager = Ok options ->
  alwaysRejects ->
  exists e s,
    run (getHomePageSections stateManager) w = (Throw e, s)
    /\ sections_of (trace s) = homeSections options.
Proof.
  intros Hapi Hopt Hko. unfold run, getHomePageSections.
  rewrite Hapi, bind_lift_Ok, Hopt, bind_lift_Ok.
  destruct (issueSections_rejected komgaAPI (homeSections options) Hko (mkPState w []))
    as (pending & s' & Hrun & Hlen & Hall & Htr).
  erewrite bind_Ok by exact Hrun.
  destruct (settleSections_rejected pending Hall None s') as (e & Hsettle).
  { left. intros ->. unfold homeSections in Hlen. rewrite !length_app in Hlen.
    simpl in Hlen. lia. }
  exists e, s'. split; [exact Hsettle | exact Htr].
Qed.
End Resiliency.

(** C2 at a configured server that rejects every request: the two empty
    sections reach the host, both requests are rejected, and the operation
    raises the transport error instead of returning. *)
Theorem getHomePageSections_rejects_when_unreachable :
  let r := @run Scripted.host _
             (@getHomePageSections Engine.engine Scripted.host Stored.common
                Stored.configured) [] in
  @getKomgaAPI Stored.common Stored.configured = Ok (Some Stored.api)
  /\ fst r = Throw (TransportError "connection refused")
  /\ sections_of (trace (snd r))
     = [ createHomeSection "new" "Recently added series" None true "singleRowNormal";
         createHomeSection "updated" "Recently updated series" None true "singleRowNormal" ]
  /\ length (requests_of (trace (snd r))) = 2%nat.
Proof.
  vm_compute. repeat split.
Qed.


(** ** The statements on sample data *)

Lemma pageServer_servesPages :
  @servesPages Engine.engine (@PageServer.host Engine.engine fiveSeries)
    (Some Stored.api) "new" fiveTiles.
Proof.
  intros i w Hi. simpl in Hi. destruct w.
  destruct i as [|[|i]]; [| |lia]; eexists; exists tt;
    (split; [vm_compute; reflexivity|]); vm_compute; reflexivity.
Qed.

Lemma getViewMoreItems_paging_witness :
  let host := @PageServer.host Engine.engine fiveSeries in
  @run host _
    (@getViewMoreItems Engine.engine host Stored.common Stored.configured "new" None) tt
  = (Ok (createPagedResults (concat fiveTiles) (Some 1)),
     @mkPState host tt [EvSchedule (@viewMoreRequest Engine.engine (Some Stored.api) "new" 0)])
  /\ exists s,
       @run host _
         (@viewMoreWalk Engine.engine host Stored.common 3 Stored.configured "new" None) tt
       = (Ok (concat fiveTiles, true), s)
       /\ requests_of (trace s)
          = [ @viewMoreRequest Engine.engine (Some Stored.api) "new" 0;
              @viewMoreRequest Engine.engine (Some Stored.api) "new" 1 ].
Proof.
  cbv zeta.
  destruct (@getViewMoreItems_paging Engine.engine (@PageServer.host Engine.engine fiveSeries)
              Stored.common Stored.configured "new" (Some Stored.api) eq_refl)
    as [Hcall Hwalk].
  split.
  - apply (Hcall None tt tt
             (createResponse (JObj [("content", JArr (concat fiveSeries))]) 200)
             (concat fiveTiles)); vm_compute; reflexivity.
  - apply (Hwalk fiveTiles 3%nat tt).
    + repeat constructor. discriminate.
    + exact pageServer_servesPages.
    + simpl. lia.
Defined.

Lemma getTags_collections_section_witness :
  (exists sections,
     fst (@run Scripted.host _
            (@getTags Engine.engine Scripted.host Stored.common Stored.configured)
            (tagAnswers 1)) = Ok sections
     /\ length sections = 3%nat
     /\ Forall (fun section => ts_label section <> "collections"%string
                               /\ ts_id section <> "2"%string) sections)
  /\ (exists sections cs,
        fst (@run Scripted.host _
               (@getTags Engine.engine Scripted.host Stored.common Stored.configured)
               (tagAnswers 2)) = Ok sections
        /\ length sections = 4%nat
        /\ length cs = 2%nat
        /\ sections !! 2%nat = Some (createTagSection "2" "collections" cs)).
Proof.
  split.
  - eexists. split; [vm_compute; reflexivity|].
    eapply (@getTags_collections_section Engine.engine Scripted.host Stored.common
              Stored.configured (Some Stored.api) (tagAnswers 1));
      try (vm_compute; reflexivity).
  - edestruct (@getTags_collections_section Engine.engine Scripted.host Stored.common
                 Stored.configured (Some Stored.api) (tagAnswers 2)) as [_ Hpresent];
      try (vm_compute; reflexivity).
    destruct Hpresent as (Hlen & cs & _ & Hcs & Hat); [simpl; lia|].
    eexists. exists cs. split; [reflexivity|]. split; [exact Hlen|].
    split; [exact Hcs | exact Hat].
Defined.

Lemma processChapterReadActionQueue_dispositions_witness :
  exists s outcomes,
    @run Scripted.host _
      (@processChapterReadActionQueue Scripted.host Stored.common
         Stored.configured sampleQueue) sampleWrites = (Ok tt, s)
    /\ map fst (dispositions_of (trace s)) = sampleQueue
    /\ requests_of (trace s)
       = map (fun a => markRead (Some Stored.api) (sourceChapterId a))
             (List.filter fromPaperback sampleQueue)
    /\ @answers Scripted.host sampleWrites (requests_of (trace s)) outcomes (world s)
    /\ dispositions_of (trace s) = expected_dispositions sampleQueue outcomes.
Proof.
  apply (@processChapterReadActionQueue_dispositions Scripted.host
           Stored.common Stored.configured (Some Stored.api) sampleQueue sampleWrites).
  reflexivity.
Defined.

(** On the sample queue: the accepted write and the foreign action are
    discarded, the refused and the unanswered write are kept for retry. *)
Example sampleQueue_dispositions :
  map snd (dispositions_of
             (trace (snd (@run Scripted.host _
                            (@processChapterReadActionQueue Scripted.host
                               Stored.common Stored.configured sampleQueue)
                            sampleWrites))))
  = [Discarded; Discarded; Retried; Retried].
Proof. vm_compute. reflexivity. Qed.

(** On the sample library the tag catalog and the home page of an
    unconfigured plugin are the placeholders. *)
Example unconfigured_placeholders :
  fst (@run Scripted.host _
         (@getTags Engine.engine Scripted.host Stored.common Stored.unconfigured) [])
  = Ok serverUnavailableTags
  /\ @run Scripted.host _
       (@getHomePageSections Engine.engine Scripted.host Stored.common Stored.unconfigured) []
     = (Ok tt, @mkPState Scripted.host [] [EvSectionCallback (@unsetSection Stored.common)]).
Proof. split; vm_compute; reflexivity. Qed.


(** * Further properties of the plugin *)

(** ** [capitalize] *)

Lemma toUpperCase_char_fixed (c : ascii) :
  is_word_char c = true ->
  is_word_char (toUpperCase_char c) = true
  /\ toUpperCase_char (toUpperCase_char c) = toUpperCase_char c.
Proof.
  destruct c as [[] [] [] [] [] [] [] []]; intros Hw;
    try discriminate Hw; split; reflexivity.
Qed.

(** X1: [capitalize] raises a [TypeError] on anything but a string; on a
    string it keeps the length and every character after the first, and
    capitalizing twice is capitalizing once. *)
Theorem capitalize_shape (tag : JSValue) :
  match tag with
  | JStr s =>
      exists t, capitalize tag = Ok t
                /\ String.length t = String.length s
                /\ (forall n, String.get (S n) t = String.get (S n) s)
                /\ capitalize (JStr t) = Ok t
  | _ => capitalize tag = Throw TypeError
  end.
Proof.
  destruct tag as [| | | |s| |]; try reflexivity.
  destruct s as [|c rest]; simpl.
  - exists EmptyString. repeat split.
  - destruct (is_word_char c) eqn:Hw.
    + destruct (toUpperCase_char_fixed c Hw) as [Hw' Hfix].
      eexists. split; [reflexivity|]. repeat split.
      simpl. rewrite Hw', Hfix. reflexivity.
    + eexists. split; [reflexivity|]. repeat split.
      simpl. rewrite Hw. reflexivity.
Qed.

(** ** The interceptors, again *)

Lemma headers_of_set (r : Request) (h : gmap string JSValue) :
  headers_of (set_headers r h) = h.
Proof. reflexivity. Qed.

(** X2: the source interceptor changes nothing but the authorization
    header, and passing its result through it again changes nothing. *)
Theorem interceptRequest_idempotent `{Common} (sm : SourceStateManager)
    (request request' : Request) :
  interceptRequest sm request = Ok request' ->
  interceptRequest sm request' = Ok request'
  /\ url request' = url request /\ method request' = method request
  /\ param request' = param request /\ data request' = data request
  /\ (forall k, k <> "authorization"%string ->
        headers_of request' !! k = headers_of request !! k).
Proof.
  unfold interceptRequest. intros Hrun.
  set (h := match headers request with Some h => h | None => ∅ end) in *.
  assert (Hh : headers_of request = h).
  { unfold headers_of, h. destruct (headers request); reflexivity. }
  rewrite authorization_of_set in Hrun.
  destruct (is_nullish (default JUndefined (h !! "authorization"))) eqn:Hn.
  - destruct (getAuthorizationString sm) as [a|e] eqn:Ha; [|discriminate].
    simpl in Hrun. injection Hrun as <-. cbn [headers set_headers].
    rewrite authorization_of_set, lookup_insert_eq. cbn [default id rbind].
    unfold set_headers. cbn [url method param data]. rewrite insert_insert_eq.
    split; [destruct (is_nullish a); reflexivity|].
    repeat split. intros k Hk. rewrite Hh. cbn. apply lookup_insert_ne. congruence.
  - injection Hrun as <-. cbn [headers set_headers].
    rewrite authorization_of_set, Hn. repeat split.
Qed.

Lemma interceptRequest_idempotent_witness :
  exists request',
    @interceptRequest Stored.common Stored.configured
      (createRequest (Stored.api ++ "/genres")%string "GET" None None None) = Ok request'
    /\ @interceptRequest Stored.common Stored.configured request' = Ok request'.
Proof.
  eexists. split; [reflexivity|].
  eapply (@interceptRequest_idempotent Stored.common Stored.configured
            (createRequest (Stored.api ++ "/genres")%string "GET" None None None)).
  reflexivity.
Defined.

(** X3: the tracker's interceptor, when it lets a request through, has set
    [content-type] and [accept] to [application/json] and kept the URL, the
    method, the body and every other header except [authorization]. *)
Theorem tracker_interceptRequest_frame (sm : SourceStateManager)
    (request request' : Request) :
  Tracker.interceptRequest sm request = Ok request' ->
  headers_of request' !! "content-type" = Some (JStr "application/json")
  /\ headers_of request' !! "accept" = Some (JStr "application/json")
  /\ url request' = url request /\ method request' = method request
  /\ param request' = param request /\ data request' = data request
  /\ (forall k, k <> "authorization"%string -> k <> "content-type"%string ->
                k <> "accept"%string ->
        headers_of request' !! k = headers_of request !! k).
Proof.
  unfold Tracker.interceptRequest. intros Hrun.
  destruct (Tracker.getAuthorizationString sm) as [a|e]; [|discriminate].
  simpl in Hrun. injection Hrun as <-. rewrite headers_of_set.
  set (h := match headers request with Some h => h | None => ∅ end).
  assert (Hh : headers_of request = h).
  { unfold headers_of, h. destruct (headers request); reflexivity. }
  assert (Hother : forall k, k <> "authorization"%string ->
            ((if is_nullish a then ∅ else {["authorization"%string := a]})
               ∪ <["accept"%string := JStr "application/json"]>
                   (<["content-type"%string := JStr "application/json"]> h)) !! k
            = (<["accept"%string := JStr "application/json"]>
                 (<["content-type"%string := JStr "application/json"]> h)) !! k).
  { intros k Hk. apply lookup_union_r.
    destruct (is_nullish a); [apply lookup_empty|].
    apply lookup_singleton_ne. congruence. }
  split; [|split].
  - rewrite Hother by discriminate.
    rewrite lookup_insert_ne by discriminate. apply lookup_insert_eq.
  - rewrite Hother by discriminate. apply lookup_insert_eq.
  - repeat split. intros k Hauth Hct Hacc. rewrite Hother by exact Hauth.
    rewrite !lookup_insert_ne by congruence. rewrite Hh. reflexivity.
Qed.

Lemma tracker_interceptRequest_frame_witness :
  exists request',
    Tracker.interceptRequest Stored.configured callerAuthorized = Ok request'
    /\ headers_of request' !! "content-type" = Some (JStr "application/json")
    /\ headers_of request' !! "accept" = Some (JStr "application/json")
    /\ url request' = url callerAuthorized.
Proof.
  eexists. split; [reflexivity|].
  edestruct (tracker_interceptRequest_frame Stored.configured callerAuthorized)
    as (Hct & Hacc & Hurl & _); [reflexivity|].
  split; [exact Hct|]. split; [exact Hacc | exact Hurl].
Defined.

(** X4: without stored credentials the tracker's interceptor lets no
    request through, not even one that brings its own authorization. *)
Theorem tracker_interceptRequest_unset (sm : SourceStateManager) (request : Request) :
  keychain sm !! "authorization" = None ->
  Tracker.interceptRequest sm request
  = Throw (HostError "Unset credentials in source settings").
Proof.
  intros Hunset. unfold Tracker.interceptRequest, Tracker.getAuthorizationString, retrieve.
  rewrite Hunset. reflexivity.
Qed.

Lemma tracker_interceptRequest_unset_witness :
  is_nullish (authorization_of callerAuthorized) = false
  /\ Tracker.interceptRequest Stored.unconfigured callerAuthorized
     = Throw (HostError "Unset credentials in source settings").
Proof.
  split; [reflexivity|].
  apply (tracker_interceptRequest_unset Stored.unconfigured callerAuthorized).
  reflexivity.
Defined.

(** ** The tag catalog, again *)




Section TagNamespaces.
Context `{JSEngine}.



End TagNamespaces.

Section TagRequests.
Context `{JSEngine} `{HostApp} `{Common}.

End TagRequests.


(** ** Paging and progress under any host *)

Section AnyHost.
Context `{JSEngine} `{HostApp} `{Common}.

(** X7: [getViewMoreItems] hands exactly one request to the request manager
    whatever comes back, and a rejection of that request is raised to the
    caller unchanged. *)
Theorem getViewMoreItems_single_request (stateManager : SourceStateManager)
    (homepageSectionId : string) (metadata : option Z) (komgaAPI : option string)
    (w w' : World) (res : Result Response) :
  getKomgaAPI stateManager = Ok komgaAPI ->
  host_schedule (viewMoreRequest komgaAPI homepageSectionId (default 0 metadata)) w
  = (res, w') ->
  requests_of (trace (snd (run (getViewMoreItems stateManager homepageSectionId metadata) w)))
  = [viewMoreRequest komgaAPI homepageSectionId (default 0 metadata)]
  /\ world (snd (run (getViewMoreItems stateManager homepageSectionId metadata) w)) = w'
  /\ (forall e, res = Throw e ->
        fst (run (getViewMoreItems stateManager homepageSectionId metadata) w) = Throw e).
Proof.
  intros Hapi Hs. unfold run, getViewMoreItems. rewrite Hapi, bind_lift_Ok.
  fold (viewMoreRequest komgaAPI homepageSectionId (default 0 metadata)).
  destruct res as [data|e].
  - erewrite bind_Ok by (apply schedule_eq; exact Hs).
    destruct (tiles_of (api_str komgaAPI ++ "/series")%string "id" data) as [tiles|e];
      [rewrite bind_lift_Ok | rewrite bind_lift_Throw];
      cbn; repeat split; intros e' He'; discriminate He'.
  - erewrite bind_Throw by (apply schedule_eq; exact Hs).
    cbn. repeat split. intros e' He'. injection He' as <-. reflexivity.
Qed.



(** X9: when the chapter list is rejected, does not decode or carries no
    [content], [onSubmit] stops after that one request: nothing is reset
    and nothing is marked. *)
Theorem onSubmit_without_content (komgaAPI : option string) (mangaId : string)
    (booksReadCount : JSValue) (target : Q) (w w1 : World) (res : Result Response) :
  js_eq_num target booksReadCount = false ->
  host_schedule (booksRequest komgaAPI mangaId) w = (res, w1) ->
  withoutContent res ->
  snd (run (onSubmit komgaAPI mangaId booksReadCount (Some target)) w)
  = mkPState w1 [EvSchedule (booksRequest komgaAPI mangaId)].
Proof.
  intros Hne Hlist Hno. unfold run, onSubmit. rewrite Hne.
  fold (booksRequest komgaAPI mangaId).
  destruct res as [response|e]; simpl in Hno.
  - erewrite bind_Ok by (apply schedule_eq; exact Hlist).
    destruct (normalize (resp_data response)) as [result|e].
    + rewrite bind_lift_Ok, Hno. reflexivity.
    + rewrite bind_lift_Throw. reflexivity.
  - erewrite bind_Throw by (apply schedule_eq; exact Hlist). reflexivity.
Qed.
End AnyHost.

Lemma getViewMoreItems_single_request_witness :
  fst (@run Scripted.host _
         (@getViewMoreItems Engine.engine Scripted.host Stored.common Stored.configured
            "new" (Some 3)) [])
  = Throw (TransportError "connection refused").
Proof.
  eapply (@getViewMoreItems_single_request Engine.engine Scripted.host Stored.common
            Stored.configured "new" (Some 3) (Some Stored.api) [] []);
    reflexivity.
Defined.


(** On that run the third chapter is never written: the sequence ends at
    the write that was not answered. *)
Example interrupted_submission :
  let r := @run Scripted.host _
             (@onSubmit Engine.engine Scripted.host (Some Stored.api) Library.series
                (JInt 0) (Some 3%Q)) interruptedWrites in
  fst r = Throw (TransportError "timeout")
  /\ length (requests_of (trace (snd r))) = 4%nat.
Proof. vm_compute. split; reflexivity. Qed.

Lemma onSubmit_without_content_witness :
  snd (@run Scripted.host _
         (@onSubmit Engine.engine Scripted.host (Some Stored.api) Library.series
            (JInt 0) (Some 3%Q)) [Scripted.ok (JObj [("status", JInt 404)])])
  = @mkPState Scripted.host [] [EvSchedule (@booksRequest (Some Stored.api) Library.series)].
Proof.
  apply (@onSubmit_without_content Engine.engine Scripted.host (Some Stored.api)
           Library.series (JInt 0) 3%Q
           [Scripted.ok (JObj [("status", JInt 404)])] []
           (Scripted.ok (JObj [("status", JInt 404)]))); reflexivity.
Defined.


(** ** The home page under any host *)

Section HomePage.
Context `{JSEngine} `{HostApp} `{Common}.





End HomePage.


(** ** Where the update walk stops *)

Section WalkStops.
Context `{JSEngine} `{HostApp} `{Common}.

(** A series that has a modification date is an object, never one of the
    candidate strings. *)
Lemma serieUpdated_not_included (ids : list string) (serie : JSValue) (d : JSDate) :
  serieUpdated serie = Ok d -> includes ids serie = false.
Proof.
  unfold serieUpdated. destruct serie; try reflexivity. simpl.
  destruct (String.eqb "metadata" "length"); discriminate.
Qed.

Lemma scanPage_serie (time : JSDate) (ids : list string) (serie : JSValue)
    (rest foundIds : list JSValue) (d : JSDate) :
  serieUpdated serie = Ok d ->
  scanPage time ids (serie :: rest) foundIds
  = if date_ge d time then scanPage time ids rest foundIds else Ok (foundIds, false).
Proof.
  intros Hd. pose proof (serieUpdated_not_included ids serie d Hd) as Hnot.
  unfold serieUpdated in Hd. cbn [scanPage].
  destruct (get_prop serie "metadata") as [metadata|]; [|discriminate]. simpl in Hd |- *.
  destruct (get_prop metadata "lastModified") as [lastModified|]; [|discriminate].
  simpl in Hd |- *. injection Hd as <-. rewrite Hnot. reflexivity.
Qed.

Lemma scanPage_fresh (time : JSDate) (ids : list string) (series foundIds : list JSValue) :
  Forall (notBefore time) series ->
  scanPage time ids series foundIds = Ok (foundIds, true).
Proof.
  induction 1 as [|serie rest (d & Hd & Hge) _ IH]; [reflexivity|].
  rewrite (scanPage_serie time ids serie rest foundIds d Hd), Hge. exact IH.
Qed.

Lemma scanPage_stale (time : JSDate) (ids : list string)
    (before after foundIds : list JSValue) (x : JSValue) :
  Forall (notBefore time) before -> stale time x ->
  scanPage time ids (before ++ x :: after) foundIds = Ok (foundIds, false).
Proof.
  intros Hbefore (d & Hd & Hlt).
  induction Hbefore as [|serie rest (d' & Hd' & Hge) _ IH]; simpl app.
  - rewrite (scanPage_serie time ids x after foundIds d Hd), Hlt. reflexivity.
  - rewrite (scanPage_serie time ids serie _ foundIds d' Hd'), Hge. exact IH.
Qed.

Lemma updatedLoop_walk (komgaAPI : option string) (time : JSDate) (ids : list string)
    (todo : list (list JSValue)) (last : list JSValue) :
  Forall (fun page => page <> [] /\ Forall (notBefore time) page) todo ->
  endsWalk time last ->
  forall (done : list (list JSValue)) (fuel : nat) (s : PState),
    servesUpdated komgaAPI (done ++ todo ++ [last]) ->
    (length todo < fuel)%nat ->
    exists w',
      updatedLoop fuel komgaAPI time ids (Z.of_nat (length done)) [] s
      = (Ok Finished,
         mkPState w'
           (trace s ++ map EvSchedule
                         (map (fun i => updatedRequest komgaAPI (Z.of_nat i))
                              (seq (length done) (S (length todo)))))).
Proof.
  intros Htodo Hlast. induction Htodo as [|page todo [Hne Hfresh] _ IH];
    intros done fuel s Hserve Hfuel;
    (destruct fuel as [|fuel]; [inversion Hfuel|]);
    destruct (Hserve (length done) (world s)) as (data & w1 & result & Hs & Hnorm & Hcontent);
    try (rewrite !length_app; simpl; lia);
    rewrite app_nth2, Nat.sub_diag in Hcontent by lia; simpl nth in Hcontent;
    rewrite updatedLoop_step;
    fold (updatedRequest komgaAPI (Z.of_nat (length done)));
    erewrite bind_Ok by (apply schedule_eq; exact Hs);
    rewrite Hnorm, bind_lift_Ok, Hcontent, bind_lift_Ok;
    change (js_iter (JArr ?l)) with (Ok l); rewrite bind_lift_Ok.
  - destruct Hlast as [-> | (before & x & after & -> & Hbefore & Hstale)].
    + cbn. exists w1. reflexivity.
    + rewrite (scanPage_stale time ids before after [] x Hbefore Hstale), bind_lift_Ok.
      cbn [fst snd length Nat.ltb Nat.leb]. rewrite bind_ret.
      destruct (length (before ++ x :: after) =? 0)%nat; exists w1; reflexivity.
  - rewrite (scanPage_fresh time ids page [] Hfresh), bind_lift_Ok.
    cbn [fst snd length Nat.ltb Nat.leb]. rewrite bind_ret.
    destruct page as [|serie page]; [congruence|].
    change (length (serie :: page) =? 0)%nat with false. cbv iota.
    match goal with |- context [updatedLoop _ _ _ _ _ _ ?s1] =>
      destruct (IH (done ++ [serie :: page]) fuel s1) as (w' & Hrest) end.
    + rewrite <- app_assoc. exact Hserve.
    + simpl in Hfuel. lia.
    + rewrite length_app in Hrest. simpl length in Hrest.
      rewrite Nat2Z.inj_add in Hrest. change (Z.of_nat 1) with 1 in Hrest.
      rewrite Hrest. exists w'. cbn [trace]. rewrite <- app_assoc.
      rewrite Nat.add_1_r. reflexivity.
Qed.

(** X11: the update walk requests the pages one after the other and ends
    with the first page that is empty or holds a series modified before the
    watermark: when the pages before it are non-empty and hold only series
    at or after the watermark, exactly those pages and that one are
    requested, and the walk finishes. *)
Theorem filterUpdatedManga_stops (stateManager : SourceStateManager)
    (komgaAPI : option string) (time : JSDate) (ids : list string)
    (pages : list (list JSValue)) (last : list JSValue) (fuel : nat) (w : World) :
  getKomgaAPI stateManager = Ok komgaAPI ->
  Forall (fun page => page <> [] /\ Forall (notBefore time) page) pages ->
  endsWalk time last ->
  servesUpdated komgaAPI (pages ++ [last]) ->
  (length pages < fuel)%nat ->
  exists s,
    run (filterUpdatedManga fuel stateManager time ids) w = (Ok Finished, s)
    /\ requests_of (trace s)
       = map (fun i => updatedRequest komgaAPI (Z.of_nat i)) (seq 0 (S (length pages))).
Proof.
  intros Hapi Hpages Hlast Hserve Hfuel. unfold run, filterUpdatedManga.
  rewrite Hapi, bind_lift_Ok.
  destruct (updatedLoop_walk komgaAPI time ids pages last Hpages Hlast [] fuel
              (mkPState w []) Hserve Hfuel) as (w' & Hwalk).
  change (Z.of_nat (length (@nil (list JSValue)))) with 0 in Hwalk.
  rewrite Hwalk. eexists. split; [reflexivity|].
  cbn [trace]. rewrite app_nil_l. apply requests_of_schedules.
Qed.
End WalkStops.

Lemma filterUpdatedManga_stops_witness :
  let host := @PageServer.host Engine.engine updatedTwoPages in
  exists s,
    @run host _
      (@filterUpdatedManga Engine.engine host Stored.common 5 Stored.configured watermark
         ["0F3K1MTCHS2QN"%string]) tt = (Ok Finished, s)
    /\ requests_of (trace s)
       = [ @updatedRequest Engine.engine (Some Stored.api) 0;
           @updatedRequest Engine.engine (Some Stored.api) 1 ].
Proof.
  cbv zeta.
  apply (@filterUpdatedManga_stops Engine.engine
           (@PageServer.host Engine.engine updatedTwoPages) Stored.common
           Stored.configured (Some Stored.api) watermark ["0F3K1MTCHS2QN"%string]
           [ [ sampleSerie "0F3K1MTCHS2QR" "2024-01-03T00:00:00Z" ] ]
           [ sampleSerie "0F3K1MTCHS2QN" "2024-01-02T00:00:00Z";
             sampleSerie "0F3K1MTCHS2QP" "2023-12-31T00:00:00Z" ]
           5%nat tt).
  - reflexivity.
  - repeat constructor; [discriminate|]. eexists. split; vm_compute; reflexivity.
  - right. exists [sampleSerie "0F3K1MTCHS2QN" "2024-01-02T00:00:00Z"],
                  (sampleSerie "0F3K1MTCHS2QP" "2023-12-31T00:00:00Z"), [].
    split; [reflexivity|]. split.
    + repeat constructor. eexists. split; vm_compute; reflexivity.
    + eexists. split; vm_compute; reflexivity.
  - intros i w Hi. destruct w. simpl in Hi.
    destruct i as [|[|i]]; [| |lia]; eexists; exists tt; eexists;
      (split; [vm_compute; reflexivity|]); split; vm_compute; reflexivity.
  - simpl. lia.
Defined.

(** ** Pages, chapters and series details *)


Lemma rmap_total {A B} (f : A -> Result B) (g : A -> B) (l : list A) :
  Forall (fun x => f x = Ok (g x)) l -> rmap f l = Ok (map g l).
Proof.
  induction 1 as [|x l Hx _ IH]; simpl; [reflexivity|]. rewrite Hx. simpl.
  rewrite IH. reflexivity.
Qed.

Lemma get_prop_present (v : JSValue) (k : string) :
  is_nullish v = false -> get_prop v k = Ok (opt_prop v k).
Proof.
  destruct v; simpl; intros Hv; try discriminate; try reflexivity;
    destruct (String.eqb k "length"); reflexivity.
Qed.

Section Pages.
Context `{JSEngine} `{HostApp} `{Common}.

(** X12: [getChapterDetails] returns one URL per entry of the page list,
    in order; the URL of an entry is the page URL of its number, followed
    by [?convert=png] exactly when its media type is not one of the five
    supported ones.  The series answer, which is fetched as well, does not
    enter the result. *)
Theorem getChapterDetails_pages (stateManager : SourceStateManager)
    (mangaId chapterId : string) (komgaAPI : option string) (w w1 w2 : World)
    (data serieResponse : Response) (entries : list JSValue) (serieResult : JSValue) :
  getKomgaAPI stateManager = Ok komgaAPI ->
  host_schedule (pagesRequest komgaAPI chapterId) w = (Ok data, w1) ->
  normalize (resp_data data) = Ok (JArr entries) ->
  Forall (fun page => is_nullish page = false) entries ->
  host_schedule (serieRequest komgaAPI mangaId) w1 = (Ok serieResponse, w2) ->
  normalize (resp_data serieResponse) = Ok serieResult ->
  is_nullish (opt_prop serieResult "metadata") = false ->
  fst (run (getChapterDetails stateManager mangaId chapterId) w)
  = Ok (createChapterDetails chapterId mangaId
          (map (fun page =>
                  (api_str komgaAPI ++ "/books/" ++ chapterId ++ "/pages/"
                   ++ ToString (opt_prop page "number")
                   ++ (if includes SUPPORTED_IMAGE_TYPES (opt_prop page "mediaType")
                       then EmptyString else "?convert=png"))%string) entries)).
Proof.
  intros Hapi Hp Hnorm Hentries Hs Hsnorm Hmeta. unfold run, getChapterDetails.
  rewrite Hapi, bind_lift_Ok.
  erewrite bind_Ok by (apply schedule_eq; exact Hp).
  rewrite Hnorm, bind_lift_Ok. change (js_iter (JArr entries)) with (Ok entries).
  simpl rbind.
  erewrite rmap_total; cycle 1.
  { eapply Forall_impl; [exact Hentries|]. intros page Hpage. unfold pageURL.
    rewrite !(get_prop_present page _ Hpage). reflexivity. }
  rewrite bind_lift_Ok.
  erewrite bind_Ok by (apply schedule_eq; exact Hs).
  rewrite Hsnorm, bind_lift_Ok.
  assert (Hresult : is_nullish serieResult = false).
  { destruct serieResult; try reflexivity; discriminate Hmeta. }
  rewrite (get_prop_present serieResult _ Hresult). simpl rbind.
  rewrite (get_prop_present _ "readingDirection" Hmeta). reflexivity.
Qed.

(** X13: the series lookup of [getChapterDetails] is made after the pages
    were decoded, and its rejection is raised to the caller: the pages are
    lost although nothing of the series answer is used. *)
Theorem getChapterDetails_serie_rejected (stateManager : SourceStateManager)
    (mangaId chapterId : string) (komgaAPI : option string) (w w1 w2 : World)
    (data : Response) (entries : list JSValue) (e : Exn) :
  getKomgaAPI stateManager = Ok komgaAPI ->
  host_schedule (pagesRequest komgaAPI chapterId) w = (Ok data, w1) ->
  normalize (resp_data data) = Ok (JArr entries) ->
  Forall (fun page => is_nullish page = false) entries ->
  host_schedule (serieRequest komgaAPI mangaId) w1 = (Throw e, w2) ->
  run (getChapterDetails stateManager mangaId chapterId) w
  = (Throw e,
     mkPState w2 [EvSchedule (pagesRequest komgaAPI chapterId);
                  EvSchedule (serieRequest komgaAPI mangaId)]).
Proof.
  intros Hapi Hp Hnorm Hentries Hs. unfold run, getChapterDetails.
  rewrite Hapi, bind_lift_Ok.
  erewrite bind_Ok by (apply schedule_eq; exact Hp).
  rewrite Hnorm, bind_lift_Ok. change (js_iter (JArr entries)) with (Ok entries).
  simpl rbind.
  erewrite rmap_total; cycle 1.
  { eapply Forall_impl; [exact Hentries|]. intros page Hpage. unfold pageURL.
    rewrite !(get_prop_present page _ Hpage). reflexivity. }
  rewrite bind_lift_Ok.
  erewrite bind_Throw by (apply schedule_eq; exact Hs). reflexivity.
Qed.
End Pages.

Section Chapters.
Context `{JSEngine} `{HostApp} `{Common}.
Variable parseFloat : string -> option Q.
Variable parseLangCode : JSValue -> Result string.


End Chapters.


Section SeriesDetails.
Context `{JSEngine}.


End SeriesDetails.


(** ** The progress shown and the progress submitted *)

Section ProgressRoundTrip.
Context `{JSEngine} `{HostApp} `{Common}.

(** X16: when the series answer carries the read count [q],
    [getMangaProgress] reports [q] as last read chapter, the form stores
    [q], and submitting [q] back through the form makes no request. *)
Theorem progress_round_trip (stateManager : SourceStateManager) (mangaId : string)
    (komgaAPI : string) (q : Q) (w w1 v v1 : World) (response response' : Response)
    (result result' : JSValue) :
  getKomgaAPI stateManager = Ok (Some komgaAPI) ->
  host_schedule (progressRequest komgaAPI mangaId) w = (Ok response, w1) ->
  normalize (resp_data response) = Ok result ->
  is_nullish (opt_prop result "booksCount") = false ->
  opt_prop result "booksReadCount" = JNum q ->
  host_schedule (serieRequest (Some komgaAPI) mangaId) v = (Ok response', v1) ->
  normalize (resp_data response') = Ok result' ->
  opt_prop result' "booksReadCount" = JNum q ->
  fst (run (getMangaProgress stateManager mangaId) w)
  = Ok (Some (createMangaProgress mangaId (JNum q)))
  /\ exists shown built,
       run (formSections (Some komgaAPI) mangaId) v = (Ok (JNum q, shown), built)
       /\ forall u, run (onSubmit (Some komgaAPI) mangaId (JNum q) (Some q)) u
                    = (Ok tt, mkPState u []).
Proof.
  intros Hapi Hp Hnorm Hcount Hread Hf Hnorm' Hread'. split.
  - unfold run, getMangaProgress. rewrite Hapi, bind_lift_Ok.
    erewrite bind_Ok by (apply schedule_eq; exact Hp).
    rewrite Hnorm, bind_lift_Ok, Hcount, Hread. reflexivity.
  - unfold run, formSections. unfold serieRequest in Hf. cbn [api_str] in *.
    erewrite bind_Ok by (apply schedule_eq; exact Hf).
    rewrite Hnorm', bind_lift_Ok, Hread'. cbn [nullish_or is_nullish].
    destruct (is_nullish (opt_prop result' "id")); eexists; eexists;
      (split; [reflexivity|]); intros u; unfold onSubmit;
      rewrite (js_eq_num_JNum q q (Qeq_refl q)); reflexivity.
Qed.
End ProgressRoundTrip.

Lemma progress_round_trip_witness :
  fst (@run Scripted.host _
         (@getMangaProgress Engine.engine Scripted.host Stored.common Stored.configured
            Library.series) [Ok sampleSerieAnswer])
  = Ok (Some (createMangaProgress Library.series (JNum 2)))
  /\ exists shown built,
       @run Scripted.host _
         (@formSections Engine.engine Scripted.host (Some Stored.api) Library.series)
         [Ok sampleSerieAnswer] = (Ok (JNum 2, shown), built)
       /\ forall u, @run Scripted.host _
                      (@onSubmit Engine.engine Scripted.host (Some Stored.api)
                         Library.series (JNum 2) (Some 2%Q)) u
                    = (Ok tt, @mkPState Scripted.host u []).
Proof.
  apply (@progress_round_trip Engine.engine Scripted.host Stored.common Stored.configured
           Library.series Stored.api 2%Q [Ok sampleSerieAnswer] [] [Ok sampleSerieAnswer] []
           sampleSerieAnswer sampleSerieAnswer (resp_data sampleSerieAnswer)
           (resp_data sampleSerieAnswer)); reflexivity.
Defined.

(** ** The action queue of the bundled tracker *)

Section TrackerActionQueue.
Context `{JSEngine} `{HostApp}.

(** X17: without a stored server URL the tracker's queue processing raises
    before it looks at the first action: no request is made and no action
    is discarded or marked for retry. *)
Theorem tracker_queue_unset (stateManager : SourceStateManager)
    (queue : list TrackedMangaChapterReadAction) (w : World) :
  state stateManager !! "komgaAPI" = None ->
  run (TrackerQueue.processChapterReadActionQueue stateManager queue) w
  = (Throw (HostError "Unset server URL in source settings"), mkPState w []).
Proof.
  intros Hunset. unfold run, TrackerQueue.processChapterReadActionQueue,
    Tracker.getKomgaAPI, retrieve. rewrite Hunset. reflexivity.
Qed.

Lemma tracker_processAction_step (komgaAPI : string) (a : TrackedMangaChapterReadAction)
    (s : PState) :
  (fromPaperback a = false
   /\ TrackerQueue.processAction komgaAPI a s
      = (Ok tt, mkPState (world s) (trace s ++ [EvDiscard a])))
  \/ (fromPaperback a = true
      /\ exists res w',
           host_schedule (TrackerQueue.markRead komgaAPI (sourceChapterId a)) (world s)
           = (res, w')
           /\ TrackerQueue.processAction komgaAPI a s
              = (Ok tt,
                 mkPState w'
                   (trace s ++ [EvSchedule (TrackerQueue.markRead komgaAPI (sourceChapterId a));
                                if succeeded res then EvDiscard a else EvRetry a]))).
Proof.
  unfold TrackerQueue.processAction, fromPaperback.
  destruct (String.eqb (sourceId a) "Paperback"); cbn [negb].
  - right. split; [reflexivity|].
    destruct (host_schedule (TrackerQueue.markRead komgaAPI (sourceChapterId a)) (world s))
      as [res w'] eqn:Hs.
    exists res, w'. split; [reflexivity|].
    unfold try_catch. cbv beta.
    destruct res as [response|e].
    + erewrite bind_Ok by (apply schedule_eq; exact Hs). simpl succeeded.
      destruct (status response <? 400); unfold emit; simpl;
        rewrite <- app_assoc; reflexivity.
    + erewrite bind_Throw by (apply schedule_eq; exact Hs).
      unfold emit; simpl. rewrite <- app_assoc. reflexivity.
  - left. split; reflexivity.
Qed.

Lemma tracker_processActions_trace (komgaAPI : string)
    (queue : list TrackedMangaChapterReadAction) :
  forall s, exists s' tr outcomes,
    TrackerQueue.processActions komgaAPI queue s = (Ok tt, s')
    /\ trace s' = trace s ++ tr
    /\ requests_of tr
       = map (fun a => TrackerQueue.markRead komgaAPI (sourceChapterId a))
             (List.filter fromPaperback queue)
    /\ answers (world s) (requests_of tr) outcomes (world s')
    /\ dispositions_of tr = expected_dispositions queue outcomes.
Proof.
  induction queue as [|a rest IH]; intros s.
  - exists s, [], []. rewrite app_nil_r. repeat split. constructor.
  - change (TrackerQueue.processActions komgaAPI (a :: rest) s)
      with (bind (TrackerQueue.processAction komgaAPI a)
                 (fun _ => TrackerQueue.processActions komgaAPI rest) s).
    destruct (tracker_processAction_step komgaAPI a s)
      as [[Hp Hstep] | (Hp & res & w' & Hs & Hstep)];
      erewrite bind_Ok by exact Hstep;
      match goal with |- context [TrackerQueue.processActions _ _ ?s1] =>
        destruct (IH s1) as (s' & tr & outcomes & Hrun & Htr & Hreq & Hans & Hdisp)
      end;
      cbn [trace world] in Htr, Hans; rewrite <- app_assoc in Htr.
    + exists s', ([EvDiscard a] ++ tr), outcomes.
      rewrite requests_of_app, dispositions_of_app. simpl. rewrite Hp.
      repeat split; try assumption. rewrite Hdisp. reflexivity.
    + exists s', ([EvSchedule (TrackerQueue.markRead komgaAPI (sourceChapterId a));
                   if succeeded res then EvDiscard a else EvRetry a] ++ tr),
             (res :: outcomes).
      rewrite requests_of_app, dispositions_of_app. simpl List.filter. rewrite Hp.
      assert (Hr : requests_of
                     [EvSchedule (TrackerQueue.markRead komgaAPI (sourceChapterId a));
                      if succeeded res then EvDiscard a else EvRetry a]
                   = [TrackerQueue.markRead komgaAPI (sourceChapterId a)]).
      { destruct (succeeded res); reflexivity. }
      assert (Hd : dispositions_of
                     [EvSchedule (TrackerQueue.markRead komgaAPI (sourceChapterId a));
                      if succeeded res then EvDiscard a else EvRetry a]
                   = [(a, if succeeded res then Discarded else Retried)]).
      { destruct (succeeded res); reflexivity. }
      rewrite Hr, Hd. simpl. rewrite Hp.
      repeat split; try assumption.
      * rewrite Hreq. reflexivity.
      * econstructor; eassumption.
      * rewrite Hdisp. reflexivity.
Qed.

(** X18: with a stored server URL the tracker's queue processing gives
    every action one disposition, as the source plugin does: an action of
    another source is discarded without a request; for an action of this
    source one write with body [{page: 1, completed: true}] is scheduled,
    and the action is discarded when the write resolves with a status below
    400 and kept for retry otherwise. *)
Theorem tracker_queue_dispositions (stateManager : SourceStateManager)
    (komgaAPI : string) (queue : list TrackedMangaChapterReadAction) (w : World) :
  state stateManager !! "komgaAPI" = Some (JStr komgaAPI) ->
  exists s outcomes,
    run (TrackerQueue.processChapterReadActionQueue stateManager queue) w = (Ok tt, s)
    /\ requests_of (trace s)
       = map (fun a => TrackerQueue.markRead komgaAPI (sourceChapterId a))
             (List.filter fromPaperback queue)
    /\ answers w (requests_of (trace s)) outcomes (world s)
    /\ dispositions_of (trace s) = expected_dispositions queue outcomes.
Proof.
  intros Hstored. unfold run, TrackerQueue.processChapterReadActionQueue,
    Tracker.getKomgaAPI, retrieve. rewrite Hstored.
  change (default JNull (Some (JStr komgaAPI))) with (JStr komgaAPI). cbv iota zeta.
  rewrite bind_lift_Ok. change (ToString (JStr komgaAPI)) with komgaAPI.
  destruct (tracker_processActions_trace komgaAPI queue (mkPState w []))
    as (s' & tr & outcomes & Hrun & Htr & Hreq & Hans & Hdisp).
  simpl in Htr, Hans. exists s', outcomes. rewrite Hrun, Htr. auto.
Qed.
End TrackerActionQueue.

Lemma tracker_queue_unset_witness :
  @run Scripted.host _
    (@TrackerQueue.processChapterReadActionQueue Engine.engine Scripted.host
       Stored.unconfigured sampleQueue) sampleWrites
  = (Throw (HostError "Unset server URL in source settings"),
     @mkPState Scripted.host sampleWrites []).
Proof.
  apply (@tracker_queue_unset Engine.engine Scripted.host Stored.unconfigured
           sampleQueue sampleWrites).
  reflexivity.
Defined.

Lemma tracker_queue_dispositions_witness :
  exists s outcomes,
    @run Scripted.host _
      (@TrackerQueue.processChapterReadActionQueue Engine.engine Scripted.host
         urlOnly sampleQueue) sampleWrites = (Ok tt, s)
    /\ requests_of (trace s)
       = map (fun a => TrackerQueue.markRead Stored.api (sourceChapterId a))
             (List.filter fromPaperback sampleQueue)
    /\ @answers Scripted.host sampleWrites (requests_of (trace s)) outcomes (world s)
    /\ dispositions_of (trace s) = expected_dispositions sampleQueue outcomes.
Proof.
  apply (@tracker_queue_dispositions Engine.engine Scripted.host urlOnly Stored.api
           sampleQueue sampleWrites).
  reflexivity.
Defined.

(** ** The further statements on sample data *)



Lemma getChapterDetails_pages_witness :
  fst (@run Scripted.host _
         (@getChapterDetails Engine.engine Scripted.host Stored.common Stored.configured
            Library.series "0F3K1MTCJ01") [Ok samplePages; Ok sampleSerieAnswer])
  = Ok (createChapterDetails "0F3K1MTCJ01" Library.series
          [ "http://komga.local/api/v1/books/0F3K1MTCJ01/pages/1"%string;
            "http://komga.local/api/v1/books/0F3K1MTCJ01/pages/2?convert=png"%string ]).
Proof.
  pose proof (@getChapterDetails_pages Engine.engine Scripted.host Stored.common
                Stored.configured Library.series "0F3K1MTCJ01" (Some Stored.api)
                [Ok samplePages; Ok sampleSerieAnswer] [Ok sampleSerieAnswer] []
                samplePages sampleSerieAnswer
                [ JObj [("number", JInt 1); ("mediaType", JStr "image/jpeg")];
                  JObj [("number", JInt 2); ("mediaType", JStr "image/avif")] ]
                (resp_data sampleSerieAnswer)
                eq_refl eq_refl eq_refl ltac:(repeat constructor)
                eq_refl eq_refl eq_refl) as Hw.
  vm_compute in Hw. vm_compute. exact Hw.
Defined.

Lemma getChapterDetails_serie_rejected_witness :
  fst (@run Scripted.host _
         (@getChapterDetails Engine.engine Scripted.host Stored.common Stored.configured
            Library.series "0F3K1MTCJ01") [Ok samplePages])
  = Throw (TransportError "connection refused").
Proof.
  pose proof (@getChapterDetails_serie_rejected Engine.engine Scripted.host Stored.common
                Stored.configured Library.series "0F3K1MTCJ01" (Some Stored.api)
                [Ok samplePages] [] [] samplePages
                [ JObj [("number", JInt 1); ("mediaType", JStr "image/jpeg")];
                  JObj [("number", JInt 2); ("mediaType", JStr "image/avif")] ]
                (TransportError "connection refused")
                eq_refl eq_refl eq_refl ltac:(repeat constructor)
                eq_refl) as Hw.
  apply (f_equal fst) in Hw. exact Hw.
Defined.



Lemma offline_alwaysRejects : @alwaysRejects Offline.host.
Proof. intros r w. reflexivity. Qed.

(** X19: when the server cannot be reached, or its URL cannot be read,
    [getTags] returns the single [Server unavailable] section instead of
    raising. *)
Theorem getTags_placeholder_when_unreachable `{JSEngine} `{HostApp} `{Common}
    (stateManager : SourceStateManager) (w : World) :
  alwaysRejects ->
  fst (run (getTags stateManager) w)
  = Ok [createTagSection "-1" "Server unavailable" []].
Proof. intros Hko. apply getTags_unreachable. exact Hko. Qed.

Lemma getTags_placeholder_when_unreachable_witness :
  fst (@run Offline.host _
         (@getTags Engine.engine Offline.host Stored.common Stored.configured) tt)
  = Ok [createTagSection "-1" "Server unavailable" []].
Proof.
  apply (@getTags_placeholder_when_unreachable Engine.engine Offline.host Stored.common
           Stored.configured tt).
  exact offline_alwaysRejects.
Defined.

(** X20: when no server URL is stored, [getHomePageSections] hands the host
    exactly one section, the [unset] placeholder with the tiles of
    [getServerUnavailableMangaTiles], makes no request and returns
    normally. *)
Theorem getHomePageSections_placeholder_when_unset `{JSEngine} `{HostApp} `{Common}
    (stateManager : SourceStateManager) (options : Options) (w : World) :
  getKomgaAPI stateManager = Ok None ->
  getOptions stateManager = Ok options ->
  fst (run (getHomePageSections stateManager) w) = Ok tt
  /\ world (snd (run (getHomePageSections stateManager) w)) = w
  /\ requests_of (trace (snd (run (getHomePageSections stateManager) w))) = []
  /\ sections_of (trace (snd (run (getHomePageSections stateManager) w)))
     = [ createHomeSection "unset"
           "Go to source settings to set your Komga server credentials."
           (Some getServerUnavailableMangaTiles) false "singleRowNormal" ].
Proof.
  intros Hapi Hopt.
  rewrite (getHomePageSections_unset stateManager options w Hapi Hopt).
  repeat split.
Qed.

Lemma getHomePageSections_placeholder_when_unset_witness :
  fst (@run Offline.host _
         (@getHomePageSections Engine.engine Offline.host Stored.common
            Stored.unconfigured) tt) = Ok tt
  /\ requests_of
       (trace (snd (@run Offline.host _
                      (@getHomePageSections Engine.engine Offline.host Stored.common
                         Stored.unconfigured) tt))) = [].
Proof.
  destruct (@getHomePageSections_placeholder_when_unset Engine.engine Offline.host
              Stored.common Stored.unconfigured
              {| showOnDeck := false; showContinueReading := false |} tt eq_refl eq_refl)
    as (Hok & _ & Hreq & _).
  split; [exact Hok | exact Hreq].
Defined.
